(** * Crawl engine of the RAG web scraper: model and properties

    Shallow embedding of [scrapers/website_scraper.py] (class
    [WebsiteScraper]), of the job registry of [app.py] ([start_scrape])
    and of the host filter of [mcp/app.py] ([is_url_allowed]).

    Python values are modelled as follows: [str] as [string], the
    [visited_urls] set as [gset string], the [urls_to_scrape] list as
    [list string], [None]-able values as [option], and a call that may
    raise as a function into [option] ([None] = an exception was raised).
    The coroutines of one batch interleave at their [await] points; the
    model makes each piece of code between two awaits one atomic event. *)

From Stdlib Require Import Ascii String.
From stdpp Require Import base decidable option list strings gmap.

Local Open Scope string_scope.

(** ** Collaborators *)

(** The dictionary built by [_extract_content]. *)
Record Document := {
  doc_url : string;
  doc_title : string;
  doc_content : string;
  doc_content_hash : string;
  doc_last_modified : option string;
  doc_scraped_at : string
}.

(** [storage.DocumentStore], reduced to what the scraper touches:
    the documents handed to [store_documents] and whether [close] ran. *)
Record DocumentStore := {
  collection_name : string;
  store_docs : list Document;
  store_closed : bool
}.

Definition DocumentStore_init (name : string) : DocumentStore :=
  {| collection_name := name; store_docs := []; store_closed := false |}.

Definition store_documents (d : DocumentStore) (docs : list Document) : DocumentStore :=
  {| collection_name := collection_name d;
     store_docs := store_docs d ++ docs;
     store_closed := store_closed d |}.

Definition DocumentStore_close (d : DocumentStore) : DocumentStore :=
  {| collection_name := collection_name d;
     store_docs := store_docs d;
     store_closed := true |}.

(** [urllib.robotparser.RobotFileParser] after [read()]: the two queries the
    scraper makes.  [rp_can_fetch ua url = None] stands for a call that
    raises. *)
Record RobotFileParser := {
  rp_can_fetch : string -> string -> option bool;
  rp_crawl_delay : string -> option nat
}.

(** [datetime.now()], as seconds since the epoch. *)
Definition datetime := Z.

(** ** The scraper object *)

Record WebsiteScraper := {
  document_store : DocumentStore;
  scraper_id : string;
  base_url : string;
  user_agent : string;
  visited_urls : gset string;
  urls_to_scrape : list string;
  override_robots : bool;
  robots_parser : option RobotFileParser;
  stop_triggered : bool;
  last_scraped_time : option datetime
}.

(** [config.get_scraper_useragent()]: its [hasattr] test on a dict is always
    false, so the fallback string is what the module constant holds. *)
Definition DEFAULT_USER_AGENT : string := "Mozilla/5.0 (compatible; RAGChatBot/1.0;)".

(** [WebsiteScraper.__init__]; [parser] is what [_setup_robots_parser]
    returned. *)
Definition WebsiteScraper_init (base collection : string) (override : bool)
    (parser : RobotFileParser) : WebsiteScraper :=
  {| document_store := DocumentStore_init collection;
     scraper_id := collection;
     base_url := base;
     user_agent := DEFAULT_USER_AGENT;
     visited_urls := ∅;
     urls_to_scrape := [];
     override_robots := override;
     robots_parser := Some parser;
     stop_triggered := false;
     last_scraped_time := None |}.

Definition set_visited_urls (v : gset string) (s : WebsiteScraper) : WebsiteScraper :=
  {| document_store := document_store s; scraper_id := scraper_id s;
     base_url := base_url s; user_agent := user_agent s;
     visited_urls := v; urls_to_scrape := urls_to_scrape s;
     override_robots := override_robots s; robots_parser := robots_parser s;
     stop_triggered := stop_triggered s; last_scraped_time := last_scraped_time s |}.

Definition set_urls_to_scrape (l : list string) (s : WebsiteScraper) : WebsiteScraper :=
  {| document_store := document_store s; scraper_id := scraper_id s;
     base_url := base_url s; user_agent := user_agent s;
     visited_urls := visited_urls s; urls_to_scrape := l;
     override_robots := override_robots s; robots_parser := robots_parser s;
     stop_triggered := stop_triggered s; last_scraped_time := last_scraped_time s |}.

Definition set_document_store (d : DocumentStore) (s : WebsiteScraper) : WebsiteScraper :=
  {| document_store := d; scraper_id := scraper_id s;
     base_url := base_url s; user_agent := user_agent s;
     visited_urls := visited_urls s; urls_to_scrape := urls_to_scrape s;
     override_robots := override_robots s; robots_parser := robots_parser s;
     stop_triggered := stop_triggered s; last_scraped_time := last_scraped_time s |}.

Definition set_stop_triggered (b : bool) (s : WebsiteScraper) : WebsiteScraper :=
  {| document_store := document_store s; scraper_id := scraper_id s;
     base_url := base_url s; user_agent := user_agent s;
     visited_urls := visited_urls s; urls_to_scrape := urls_to_scrape s;
     override_robots := override_robots s; robots_parser := robots_parser s;
     stop_triggered := b; last_scraped_time := last_scraped_time s |}.

Definition set_last_scraped_time (t : option datetime) (s : WebsiteScraper) : WebsiteScraper :=
  {| document_store := document_store s; scraper_id := scraper_id s;
     base_url := base_url s; user_agent := user_agent s;
     visited_urls := visited_urls s; urls_to_scrape := urls_to_scrape s;
     override_robots := override_robots s; robots_parser := robots_parser s;
     stop_triggered := stop_triggered s; last_scraped_time := t |}.

(** ** Policy guard: [_can_fetch] *)

(** The whole body is inside [try]; the only call that can raise is
    [robots_parser.can_fetch], and [except Exception] answers [False]. *)
Definition _can_fetch (s : WebsiteScraper) (url : string) : bool :=
  match override_robots s, robots_parser s with
  | true, _ => true
  | false, None => true
  | false, Some parser =>
      match rp_can_fetch parser (user_agent s) url with
      | Some allowed => allowed
      | None => false
      end
  end.

(** ** [stop] and [progress] *)

Definition stop (s : WebsiteScraper) : WebsiteScraper :=
  let s := set_stop_triggered true s in
  let s := set_visited_urls ∅ s in
  let s := set_urls_to_scrape [] s in
  set_document_store (DocumentStore_close (document_store s)) s.

(** The dictionary returned by [progress]. *)
Record Progress := {
  p_visited_urls : nat;
  p_remaining_urls : nat;
  p_last_scraped_time : option datetime
}.

(** [progress], with the scraper threaded through so that its effect on the
    object can be stated. *)
Definition progress (s : WebsiteScraper) : Progress * WebsiteScraper :=
  ({| p_visited_urls := size (visited_urls s);
      p_remaining_urls := length (urls_to_scrape s);
      p_last_scraped_time := last_scraped_time s |}, s).

(** ** The crawl: link extraction, frontier, fetch units, scheduler *)

Section Crawl.

(** Module constant [MAX_CONCURRENT_PAGES] (configuration key
    [concurrency]); [asyncio.Semaphore] refuses a negative value. *)
Variable MAX_CONCURRENT_PAGES : nat.

(** [urllib.parse.urljoin], a standard-library function the scraper only
    calls with a reference that starts with a slash. *)
Variable urljoin : string -> string -> string.

(** *** [_extract_links] *)

(** One turn of the [for element in elements] loop; [href] is what
    [get_attribute("href")] returned. *)
Definition _extract_links_body (base : string) (links : list string)
    (href : option string) : list string :=
  match href with
  | None => links
  | Some h =>
      if bool_decide (h = "") then links
      else if String.prefix base h then links ++ [h]
      else if String.prefix "/" h then links ++ [urljoin base h]
      else links
  end.

Definition _extract_links (base : string) (elements : list (option string)) : list string :=
  foldl (_extract_links_body base) [] elements.


(** *** Offering discovered links to the frontier *)

(** The condition of the list comprehension of [_scrape_page]. *)
Definition offer_ok (s : WebsiteScraper) (link : string) : Prop :=
  (link ∉ visited_urls s) ∧ (link ∉ urls_to_scrape s) ∧ _can_fetch s link = true.

#[local] Instance offer_ok_dec s link : Decision (offer_ok s link).
Proof. unfold offer_ok. apply _. Defined.

(** [self.urls_to_scrape.extend([link for link in new_links if ...])]:
    the comprehension is evaluated in full against the frontier as it is
    before the call, then its result is appended. *)
Definition offer_links (s : WebsiteScraper) (new_links : list string) : WebsiteScraper :=
  set_urls_to_scrape (urls_to_scrape s ++ filter (offer_ok s) new_links) s.

(** *** One fetch-extract-discover unit: [_scrape_page] *)

(** How [context.new_page()], [page.goto(url)] and the crawl delay ended. *)
Inductive fetch_outcome :=
| NewPageRaises      (* new_page raised: outer except *)
| GotoRaises         (* goto raised: finally, outer except *)
| GotoCancelled      (* CancelledError in goto: inner except *)
| SleepCancelled     (* goto returned, CancelledError in sleep: inner except *)
| FetchOk.           (* goto and sleep returned *)

#[global] Instance fetch_outcome_eq_dec : EqDecision fetch_outcome.
Proof. solve_decision. Defined.

(** The page could not be opened or loaded. *)
Definition fetch_failed (o : fetch_outcome) : bool :=
  match o with
  | NewPageRaises | GotoRaises | GotoCancelled => true
  | SleepCancelled | FetchOk => false
  end.

(** Where a unit is suspended. *)
Inductive stage :=
| Queued        (* created by the scheduler, waiting for a permit *)
| Fetching      (* past the visited check, awaiting new_page, goto, sleep *)
| Extracting    (* url added to visited_urls, awaiting _extract_content *)
| Linking       (* awaiting _extract_links *)
| Finished.

#[local] Instance stage_eq_dec : EqDecision stage.
Proof. solve_decision. Defined.

(** What wakes a unit up.  [ContentDone None] is [_extract_content]
    returning [None]; [LinksDone None] is [_extract_links] raising. *)
Inductive unit_event :=
| Enter
| FetchDone (o : fetch_outcome)
| ContentDone (content : option Document)
| LinksDone (elements : option (list (option string))).

Definition unit_step (s : WebsiteScraper) (url : string) (st : stage) (e : unit_event)
    : option (WebsiteScraper * stage) :=
  match st, e with
  | Queued, Enter =>
      if bool_decide (url ∈ visited_urls s) then Some (s, Finished)
      else Some (s, Fetching)
  | Fetching, FetchDone FetchOk =>
      Some (set_visited_urls ({[url]} ∪ visited_urls s) s, Extracting)
  | Fetching, FetchDone _ => Some (s, Finished)
  | Extracting, ContentDone (Some content) =>
      Some (set_document_store (store_documents (document_store s) [content]) s, Linking)
  | Extracting, ContentDone None => Some (s, Linking)
  | Linking, LinksDone (Some elements) =>
      Some (offer_links s (_extract_links (base_url s) elements), Finished)
  | Linking, LinksDone None => Some (s, Finished)
  | _, _ => None
  end.

(** A page as one unit meets it. *)
Record page_behaviour := {
  pb_fetch : fetch_outcome;
  pb_content : option Document;
  pb_links : option (list (option string))
}.

Definition unit_events (pb : page_behaviour) : list unit_event :=
  [Enter; FetchDone (pb_fetch pb); ContentDone (pb_content pb); LinksDone (pb_links pb)].

Fixpoint run_unit (s : WebsiteScraper) (url : string) (st : stage) (evs : list unit_event)
    : WebsiteScraper * stage :=
  match evs with
  | [] => (s, st)
  | e :: evs' =>
      match unit_step s url st e with
      | Some (s', st') => run_unit s' url st' evs'
      | None => (s, st)
      end
  end.

(** [_scrape_page] run from entry to return with nothing interleaved. *)
Definition _scrape_page (s : WebsiteScraper) (url : string) (pb : page_behaviour)
    : WebsiteScraper :=
  fst (run_unit s url Queued (unit_events pb)).

(** *** The scheduler: [scrape_website] *)

Record task := { task_url : string; task_stage : stage }.

Record Run := {
  self : WebsiteScraper;
  max_pages : Z;
  first_run : bool;
  tasks : list task;          (* the coroutines handed to gather *)
  batches : list (list string); (* history: every batch taken, oldest first *)
  running : bool              (* the while loop has not been left *)
}.

(** From the top of [scrape_website] to the first test of the loop
    condition (browser set-up succeeded). *)
Definition scrape_website_begin (s : WebsiteScraper) (now : datetime) (max : Z) : Run :=
  let s := set_last_scraped_time (Some now) s in
  let s := set_visited_urls ∅ s in
  let s := set_urls_to_scrape [base_url s] s in
  {| self := s; max_pages := max; first_run := true;
     tasks := []; batches := []; running := true |}.

(** [while self.urls_to_scrape and len(self.visited_urls) < max_pages]. *)
Definition loop_guard (r : Run) : bool :=
  bool_decide (urls_to_scrape (self r) ≠ [])
  && bool_decide (Z.of_nat (size (visited_urls (self r))) < max_pages r)%Z.

(** The batch and the frontier left behind.  On the first turn [batch] is
    the frontier list itself and nothing is sliced off. *)
Definition next_batch (first : bool) (frontier : list string) : list string * list string :=
  if first then (frontier, frontier)
  else (take MAX_CONCURRENT_PAGES frontier, drop MAX_CONCURRENT_PAGES frontier).

Definition task_ok (s : WebsiteScraper) (url : string) : Prop :=
  (url ∉ visited_urls s) ∧ _can_fetch s url = true.

#[local] Instance task_ok_dec s url : Decision (task_ok s url).
Proof. unfold task_ok. apply _. Defined.

(** The [tasks] comprehension: built in full before any coroutine runs. *)
Definition make_tasks (s : WebsiteScraper) (batch : list string) : list task :=
  (λ url, {| task_url := url; task_stage := Queued |}) <$> filter (task_ok s) batch.

(** One test of the loop condition and, if it holds, one loop body up to
    the call of [gather]. *)
Definition iterate (r : Run) : Run :=
  if loop_guard r then
    let (batch, rest) := next_batch (first_run r) (urls_to_scrape (self r)) in
    let s := set_urls_to_scrape rest (self r) in
    {| self := s; max_pages := max_pages r; first_run := false;
       tasks := make_tasks s batch; batches := batches r ++ [batch];
       running := true |}
  else
    {| self := self r; max_pages := max_pages r; first_run := first_run r;
       tasks := tasks r; batches := batches r; running := false |}.

Definition set_self (s : WebsiteScraper) (r : Run) : Run :=
  {| self := s; max_pages := max_pages r; first_run := first_run r;
     tasks := tasks r; batches := batches r; running := running r |}.

Definition set_tasks (ts : list task) (r : Run) : Run :=
  {| self := self r; max_pages := max_pages r; first_run := first_run r;
     tasks := ts; batches := batches r; running := running r |}.

(** Units holding a permit of [self.semaphore]. *)
Definition holds_permit (t : task) : bool :=
  bool_decide (task_stage t ≠ Queued ∧ task_stage t ≠ Finished).

Definition permits_taken (ts : list task) : nat :=
  length (List.filter holds_permit ts).

(** What can happen next in a run: the scheduler tests its loop condition
    (once [gather] has returned), unit [i] of the current batch is woken
    up, or [stop()] is called from the service. *)
Inductive event :=
| Iterate
| Unit (i : nat) (e : unit_event)
| Stop.

Definition all_finished (ts : list task) : bool :=
  forallb (λ t, bool_decide (task_stage t = Finished)) ts.

Definition step (r : Run) (ev : event) : option Run :=
  match ev with
  | Iterate =>
      if running r && all_finished (tasks r) then Some (iterate r) else None
  | Stop => Some (set_self (stop (self r)) r)
  | Unit i e =>
      match tasks r !! i with
      | None => None
      | Some t =>
          if bool_decide (task_stage t = Queued)
             && negb (permits_taken (tasks r) <? MAX_CONCURRENT_PAGES)%nat
          then None
          else
            match unit_step (self r) (task_url t) (task_stage t) e with
            | None => None
            | Some (s', st') =>
                Some (set_tasks (<[i := {| task_url := task_url t; task_stage := st' |}]> (tasks r))
                        (set_self s' r))
            end
      end
  end.

(** A schedule, event by event; [None] if some event was not enabled. *)
Fixpoint exec (r : Run) (evs : list event) : option Run :=
  match evs with
  | [] => Some r
  | ev :: evs' =>
      match step r ev with
      | Some r' => exec r' evs'
      | None => None
      end
  end.

End Crawl.

(** ** [urllib.parse]: the part of [urlparse] the services rely on

    A model of the standard library's [urlsplit] for what the two services
    read from it: the scheme, the network location, the [ValueError] raised
    for a network location with an unbalanced square bracket, and the
    [hostname] property.  Stripping of control characters and the validation
    of a bracketed host are left out. *)

Module Urllib.

Record ParseResult := {
  scheme : string;
  netloc : string;
  rest : string         (* path, query and fragment, not split further *)
}.

(** [s.partition(c)] as (before, found, after). *)
Fixpoint partition (c : ascii) (s : string) : string * bool * string :=
  match s with
  | EmptyString => (EmptyString, false, EmptyString)
  | String a s' =>
      if Ascii.eqb a c then (EmptyString, true, s')
      else let '(before, found, after) := partition c s' in
           (String a before, found, after)
  end.

(** The third component of [s.rpartition(c)]. *)
Fixpoint after_last (c : ascii) (s : string) : string :=
  match s with
  | EmptyString => EmptyString
  | String a s' =>
      let '(_, found, _) := partition c s' in
      if found then after_last c s'
      else if Ascii.eqb a c then s' else s
  end.

Definition contains (c : ascii) (s : string) : bool :=
  let '(_, found, _) := partition c s in found.

Definition is_upper (a : ascii) : bool :=
  let n := nat_of_ascii a in (65 <=? n)%nat && (n <=? 90)%nat.

Definition is_alpha (a : ascii) : bool :=
  let n := nat_of_ascii a in
  is_upper a || ((97 <=? n)%nat && (n <=? 122)%nat).

Definition is_digit (a : ascii) : bool :=
  let n := nat_of_ascii a in (48 <=? n)%nat && (n <=? 57)%nat.

(** Membership in [scheme_chars]. *)
Definition is_scheme_char (a : ascii) : bool :=
  is_alpha a || is_digit a
  || Ascii.eqb a "+" || Ascii.eqb a "-" || Ascii.eqb a ".".

Definition lower_ascii (a : ascii) : ascii :=
  if is_upper a then ascii_of_nat (nat_of_ascii a + 32) else a.

Fixpoint lower (s : string) : string :=
  match s with
  | EmptyString => EmptyString
  | String a s' => String (lower_ascii a) (lower s')
  end.

Fixpoint all_chars (p : ascii -> bool) (s : string) : bool :=
  match s with
  | EmptyString => true
  | String a s' => p a && all_chars p s'
  end.

(** The scheme, if the text before the first colon is one, and what
    follows. *)
Definition split_scheme (url : string) : string * string :=
  let '(before, found, after) := partition ":" url in
  match before with
  | String a _ =>
      if found && is_alpha a && all_chars is_scheme_char before
      then (lower before, after)
      else (EmptyString, url)
  | EmptyString => (EmptyString, url)
  end.

(** [_splitnetloc(url, 2)] on the text after the two slashes: up to the
    first of slash, question mark and hash. *)
Fixpoint splitnetloc (s : string) : string * string :=
  match s with
  | EmptyString => (EmptyString, EmptyString)
  | String a s' =>
      if Ascii.eqb a "/" || Ascii.eqb a "?" || Ascii.eqb a "#" then (EmptyString, s)
      else let (n, r) := splitnetloc s' in (String a n, r)
  end.

(** [urlparse(url)]; [None] is the [ValueError] "Invalid IPv6 URL". *)
Definition urlparse (url : string) : option ParseResult :=
  let (sch, url1) := split_scheme url in
  match url1 with
  | String "/" (String "/" url2) =>
      let (loc, r) := splitnetloc url2 in
      if xorb (contains "[" loc) (contains "]" loc) then None
      else Some {| scheme := sch; netloc := loc; rest := r |}
  | _ => Some {| scheme := sch; netloc := EmptyString; rest := url1 |}
  end.

(** The first component of [_hostinfo]. *)
Definition hostinfo (p : ParseResult) : string :=
  let info := after_last "@" (netloc p) in
  let '(_, have_open_br, bracketed) := partition "[" info in
  if have_open_br then
    let '(host, _, _) := partition "]" bracketed in host
  else
    let '(host, _, _) := partition ":" info in host.

(** The [hostname] property: [None] for an empty host, otherwise the host
    in lower case with a zone identifier kept as it is. *)
Definition hostname (p : ParseResult) : option string :=
  let host := hostinfo p in
  if bool_decide (host = EmptyString) then None
  else
    let '(h, percent, zone) := partition "%" host in
    Some (lower h ++ (if percent then "%" else EmptyString) ++ zone).

(** [urljoin(base, ref)] where [base] is an http or https URL with a
    network location and [ref] is either one slash followed by a path
    without dot segments and without empty segments, or two slashes
    followed by a host name and such a path: the scheme of [base] before a
    reference that starts with two slashes, the scheme and network location
    of [base] before any other.  It is used on such references only; where
    this description does not apply, [ref] is returned as it is, which is
    not always what [urljoin] returns. *)
Definition urljoin_simple (base ref : string) : string :=
  match urlparse base with
  | Some p =>
      if bool_decide (scheme p = "http" \/ scheme p = "https")
         && negb (bool_decide (netloc p = EmptyString))
      then
        match ref with
        | String "/" (String "/" _) => scheme p ++ ":" ++ ref
        | String "/" _ => scheme p ++ "://" ++ netloc p ++ ref
        | _ => ref
        end
      else ref
  | None => ref
  end.

End Urllib.

(** ** The scraping service: [app.py] *)

(** The names for which [hasattr(d, name)] holds when [d] is a [dict],
    whatever its keys are: the attributes of the type, not its entries. *)
Definition dict_attributes : list string :=
  [ "clear"; "copy"; "fromkeys"; "get"; "items"; "keys"; "pop"; "popitem";
    "setdefault"; "update"; "values";
    "__class__"; "__class_getitem__"; "__contains__"; "__delattr__";
    "__delitem__"; "__dir__"; "__doc__"; "__eq__"; "__format__"; "__ge__";
    "__getattribute__"; "__getitem__"; "__getstate__"; "__gt__"; "__hash__";
    "__init__"; "__init_subclass__"; "__ior__"; "__iter__"; "__le__";
    "__len__"; "__lt__"; "__ne__"; "__new__"; "__or__"; "__reduce__";
    "__reduce_ex__"; "__repr__"; "__reversed__"; "__ror__"; "__setattr__";
    "__setitem__"; "__sizeof__"; "__str__"; "__subclasshook__" ].

(** [hasattr(scrapers, name)] for the module-level dict [scrapers].  [None]
    is the [TypeError] raised for a name that is not a string. *)
Definition hasattr_dict {V} (d : gmap string V) (name : option string) : option bool :=
  match name with
  | None => None
  | Some n => Some (bool_decide (n ∈ dict_attributes))
  end.

Record ScrapeRequest := {
  url : string;
  schedule_interval_hours : option Z
}.

(** What a handler answers: one of the two response models, or an
    exception that leaves the handler (HTTP 500). *)
Inductive Reply :=
| ErrorResponse (error : string) (code : Z)
| ScrapeResponse (status : string)
| Unhandled.

Definition HTTP_400_BAD_REQUEST : Z := 400.

(** The module state of [app.py]: the [scrapers] dict, the ids of the jobs
    held by the scheduler, and the hosts of the scrapers whose
    [scrape_website] has been handed to the background tasks, oldest first. *)
Record Service := {
  scrapers : gmap string WebsiteScraper;
  scheduled : gset string;
  launched : list string
}.

Definition Service_init : Service :=
  {| scrapers := ∅; scheduled := ∅; launched := [] |}.

Definition check_domain (u : option string) : option string :=
  match u with
  | None => None
  | Some u => if String.prefix "http" u then Some u else None
  end.

Section Service.

(** [urllib.parse.urlparse]; [None] when it raises. *)
Variable urlparse : string -> option Urllib.ParseResult.

(** [extract_domain]; the outer [None] is an exception of [urlparse]. *)
Definition extract_domain (domain : string) : option (option string) :=
  if bool_decide (domain = "") then Some None
  else
    match urlparse domain with
    | None => None
    | Some parsed_uri => Some (Urllib.hostname parsed_uri)
    end.

(** [start_scrape]; [robots] is the parser the new scraper ends up with. *)
Definition start_scrape (svc : Service) (request : ScrapeRequest) (robots : RobotFileParser)
    : Reply * Service :=
  match check_domain (Some (url request)) with
  | None =>
      (ErrorResponse "Missing domain in the request. Specify using 'url' field"
         HTTP_400_BAD_REQUEST, svc)
  | Some domain =>
      match extract_domain domain with
      | None => (Unhandled, svc)
      | Some host =>
          match hasattr_dict (scrapers svc) host, host with
          | Some true, Some h =>
              (ErrorResponse ("Scraper for domain " ++ h ++ " already exists")
                 HTTP_400_BAD_REQUEST, svc)
          | Some false, Some h =>
              let scraper := WebsiteScraper_init domain h true robots in
              let jobs :=
                match schedule_interval_hours request with
                | Some interval =>
                    if bool_decide (interval = 0%Z) then scheduled svc
                    else {[ "scraper_" ++ h ]} ∪ scheduled svc
                | None => scheduled svc
                end in
              (ScrapeResponse "Scraping started successfully",
               {| scrapers := <[h := scraper]> (scrapers svc);
                  scheduled := jobs;
                  launched := launched svc ++ [h] |})
          | _, _ => (Unhandled, svc)
          end
      end
  end.

(** [stop_scrape]. *)
Definition stop_scrape (svc : Service) (request : ScrapeRequest) : Reply * Service :=
  match check_domain (Some (url request)) with
  | None =>
      (ErrorResponse "Missing domain in the request. Specify using 'url' field"
         HTTP_400_BAD_REQUEST, svc)
  | Some domain =>
      match extract_domain domain with
      | None => (Unhandled, svc)
      | Some None => (ErrorResponse "No scraper present with this domain" HTTP_400_BAD_REQUEST, svc)
      | Some (Some h) =>
          match scrapers svc !! h with
          | None => (ErrorResponse "No scraper present with this domain" HTTP_400_BAD_REQUEST, svc)
          | Some _ =>
              (ScrapeResponse ("Scraper for " ++ h ++ " stopped successfully"),
               {| scrapers := delete h (scrapers svc);
                  scheduled := scheduled svc ∖ {[ "scraper_" ++ h ]};
                  launched := launched svc |})
          end
      end
  end.

End Service.

(** ** The MCP server: [mcp/app.py] *)

Section Mcp.

(** Module constant [ALLOWED_HOSTS] (the empty list in the source). *)
Variable ALLOWED_HOSTS : list string.

(** [urllib.parse.urlparse]; [None] when it raises. *)
Variable urlparse : string -> option Urllib.ParseResult.

(** [is_url_allowed]: the URL is parsed first, inside the [try]. *)
Definition is_url_allowed (u : string) : bool :=
  match urlparse u with
  | None => false
  | Some parsed =>
      if bool_decide (ALLOWED_HOSTS = []) then true
      else
        match Urllib.hostname parsed with
        | Some h => bool_decide (h ∈ ALLOWED_HOSTS)
        | None => false
        end
  end.

(** The guard that opens the tools [search], [start_scrape] and
    [stop_scrape]: refuse with an error object, or go on to send the request
    for [u] to the service. *)
Inductive ToolGate :=
| NotAllowed
| Forwarded (u : string).

Definition tool_gate (u : string) : ToolGate :=
  if negb (is_url_allowed u) then NotAllowed else Forwarded u.

End Mcp.

(** ** A small site, for the concrete runs *)

(** A robots file that allows everything. *)
Definition open_robots : RobotFileParser :=
  {| rp_can_fetch := λ _ _, Some true; rp_crawl_delay := λ _, None |}.

(** A robots parser whose evaluation raises. *)
Definition broken_robots : RobotFileParser :=
  {| rp_can_fetch := λ _ _, None; rp_crawl_delay := λ _, None |}.

Definition site_scraper : WebsiteScraper :=
  WebsiteScraper_init "https://site" "site" true open_robots.

(** [scrape_website(max_pages=10)] on the site, just started. *)
Definition site_run : Run := scrape_website_begin site_scraper 0%Z 10%Z.

(** The seed page is fetched and shows the given anchors. *)
Definition seed_page (anchors : list (option string)) : list event :=
  [ Iterate; Unit 0 Enter; Unit 0 (FetchDone FetchOk); Unit 0 (ContentDone None);
    Unit 0 (LinksDone (Some anchors)) ].

(** The run after the seed page, which links to one page, has been
    processed: the state in which the second loop turn starts. *)
Definition after_seed_page : Run :=
  default site_run (exec 25 Urllib.urljoin_simple site_run (seed_page [Some "/a"])).

(** The same, with [stop()] called while the seed page is being fetched. *)
Definition seed_page_stopped (anchors : list (option string)) : list event :=
  [ Iterate; Unit 0 Enter; Stop; Unit 0 (FetchDone FetchOk); Unit 0 (ContentDone None);
    Unit 0 (LinksDone (Some anchors)) ].

(** The run on the site with the unit for the seed page awaiting the
    fetch. *)
Definition seed_page_fetching : Run :=
  default site_run (exec 25 Urllib.urljoin_simple site_run [Iterate; Unit 0 Enter]).

(** The seed page is fetched, neither content nor links can be extracted
    from it, and the scheduler takes its next turn. *)
Definition seed_page_unreadable : Run :=
  default site_run
    (exec 25 Urllib.urljoin_simple seed_page_fetching
       [ Unit 0 (FetchDone FetchOk); Unit 0 (ContentDone None);
         Unit 0 (LinksDone None); Iterate ]).

(** The seed page links to pages a and b.  In the second batch the unit for
    a finishes first, and page a links to b, whose unit is still fetching;
    then the unit for b finishes, and the scheduler takes its third turn. *)
Definition relinked_page : list event :=
  (seed_page [Some "/a"; Some "/b"]
   ++ [ Iterate; Unit 0 Enter; Unit 1 Enter;
        Unit 0 (FetchDone FetchOk); Unit 0 (ContentDone None);
        Unit 0 (LinksDone (Some [Some "/b"]));
        Unit 1 (FetchDone FetchOk); Unit 1 (ContentDone None);
        Unit 1 (LinksDone (Some []));
        Iterate ])%list.

(** A scraper for example.com that has visited one page. *)
Definition example_scraper_busy : WebsiteScraper :=
  set_visited_urls {[ "https://example.com" ]}
    (WebsiteScraper_init "https://example.com" "example.com" true open_robots).

(** The service with that scraper registered and running. *)
Definition example_service : Service :=
  {| scrapers := {[ "example.com" := example_scraper_busy ]};
     scheduled := ∅;
     launched := [ "example.com" ] |}.

Definition example_request : ScrapeRequest :=
  {| url := "https://example.com"; schedule_interval_hours := None |}.

(** ** Runs: notions used by the invariants *)

(** The fields [_can_fetch] and [_extract_links] read; nothing in a run
    assigns them. *)
Definition same_policy (s s' : WebsiteScraper) : Prop :=
  override_robots s' = override_robots s
  ∧ robots_parser s' = robots_parser s
  ∧ user_agent s' = user_agent s
  ∧ base_url s' = base_url s.

(** Everything a run has scheduled, visited or queued is allowed by the
    policy of the scraper [s0] it was started on; the base URL is queued
    without being asked about. *)
Definition policy_respected (s0 : WebsiteScraper) (r : Run) : Prop :=
  same_policy s0 (self r)
  ∧ Forall (λ t, _can_fetch s0 (task_url t) = true) (tasks r)
  ∧ (∀ u, u ∈ visited_urls (self r) → _can_fetch s0 u = true)
  ∧ Forall (λ u, u = base_url s0 ∨ _can_fetch s0 u = true) (urls_to_scrape (self r)).

(** Units that have not yet reached [visited_urls.add]. *)
Definition before_add (t : task) : bool :=
  match task_stage t with
  | Queued | Fetching => true
  | _ => false
  end.

Definition pending (ts : list task) : nat :=
  length (List.filter before_add ts).

(** The page budget as a run keeps it, for [n] permits and the budget
    [budget] the run was started with: the pages visited and the units that
    may still add one stay within the budget plus one batch. *)
Definition within_budget (n : nat) (budget : Z) (r : Run) : Prop :=
  max_pages r = budget
  ∧ (Z.of_nat (size (visited_urls (self r)) + pending (tasks r))
     ≤ Z.max 0 (budget - 1) + Z.of_nat (Nat.max n 1))%Z
  ∧ (length (tasks r) ≤ Nat.max n 1)%nat
  ∧ (first_run r = true →
     tasks r = [] ∧ (length (urls_to_scrape (self r)) ≤ 1)%nat).

(** A robots file that closes the paths under /private. *)
Definition private_robots : RobotFileParser :=
  {| rp_can_fetch := λ _ u, Some (negb (String.prefix "https://site/private" u));
     rp_crawl_delay := λ _, None |}.

(** The site crawled with the robots file observed. *)
Definition guarded_scraper : WebsiteScraper :=
  WebsiteScraper_init "https://site" "site" false private_robots.

(** The seed page links to a private page and to page a. *)
Definition guarded_run : Run :=
  default site_run
    (exec 25 Urllib.urljoin_simple (scrape_website_begin guarded_scraper 0%Z 10%Z)
       (seed_page [Some "/private/x"; Some "/a"] ++ [Iterate; Unit 0 Enter])%list).

(** The run on the small site with its first batch taken. *)
Definition first_batch_run : Run :=
  default site_run (exec 25 Urllib.urljoin_simple site_run [Iterate]).

(** A start request with a URL that has a scheme and no host, and one for
    example.com with a daily schedule. *)
Definition no_host_request : ScrapeRequest :=
  {| url := "http:foo"; schedule_interval_hours := None |}.

Definition daily_request : ScrapeRequest :=
  {| url := "https://example.com"; schedule_interval_hours := Some 24%Z |}.

(** Stand-ins for the collaborators of the vector store: every content is
    one chunk, the empty text cannot be embedded, the embedding and the hash
    of a text are its length. *)
Definition one_chunk (content : string) : list string := [content].

Definition embed_length (chunk : string) : option nat :=
  if bool_decide (chunk = "") then None else Some (String.length chunk).

Definition hash_length (chunk : string) : Z := Z.of_nat (String.length chunk).

Definition page_document (u content scraped_at : string) : Document :=
  {| doc_url := u; doc_title := "Page"; doc_content := content;
     doc_content_hash := ""; doc_last_modified := None;
     doc_scraped_at := scraped_at |}.

Definition is_unit_event (ev : event) : bool :=
  match ev with
  | Unit _ _ => true
  | _ => false
  end.

Definition is_stop (ev : event) : bool :=
  match ev with
  | Stop => true
  | _ => false
  end.

(** The one step of a unit that runs [self.visited_urls.add(url)]: the unit
    is woken up in [Fetching] with [page.goto] and [asyncio.sleep] both
    returned. *)
Definition adds_url (st : stage) (e : unit_event) : bool :=
  match st, e with
  | Fetching, FetchDone FetchOk => true
  | _, _ => false
  end.

(** ** Kinds of href, for the statement about [_extract_links] *)





(** ** The scraping service: sequences of requests *)

Inductive service_request :=
| StartScrape (request : ScrapeRequest) (robots : RobotFileParser)
| StopScrape (request : ScrapeRequest).

Definition handle (urlparse : string -> option Urllib.ParseResult) (svc : Service)
    (rq : service_request) : Reply * Service :=
  match rq with
  | StartScrape request robots => start_scrape urlparse svc request robots
  | StopScrape request => stop_scrape urlparse svc request
  end.

(** The service after a sequence of requests, oldest first. *)
Definition serve (urlparse : string -> option Urllib.ParseResult) (svc : Service)
    (rqs : list service_request) : Service :=
  foldl (λ svc rq, snd (handle urlparse svc rq)) svc rqs.

(** ** Tool results of the MCP server: [format_response] *)

Section FormatResponse.

(** A parsed JSON body. *)
Variable Json : Type.

(** A float. *)
Variable Float : Type.

(** [elapsed.total_seconds() * 1000] for a [timedelta] of so many
    microseconds. *)
Variable total_milliseconds : Z -> Float.

(** What [format_response] reads of an [httpx.Response]: [json_body] is
    [None] when [response.json()] raises, [elapsed] is in microseconds. *)
Record HttpResponse := {
  status_code : Z;
  json_body : option Json;
  text : string;
  elapsed : Z
}.

Record ToolResult := {
  tr_status_code : Z;
  tr_json : option Json;
  tr_text : string;
  tr_elapsed_ms : option Float;
  tr_success : bool
}.

Definition format_response (response : HttpResponse) : ToolResult :=
  {| tr_status_code := status_code response;
     tr_json := json_body response;
     tr_text :=
       if (2000 <? String.length (text response))%nat
       then substring 0 2000 (text response)
       else text response;
     tr_elapsed_ms :=
       if bool_decide (elapsed response ≠ 0%Z)
       then Some (total_milliseconds (elapsed response))
       else None;
     tr_success := bool_decide (200 ≤ status_code response < 300)%Z |}.

End FormatResponse.

(** ** Configuration: [config/config.py] *)

Module Config.

Definition SCRAPE_CONFIGURATION : string := "SCRAPE_CONFIGURATION".
Definition VECTOR_DB_CONFIGURATION : string := "VECTOR_DB_CONFIGURATION".
Definition LLM_CONFIGURATION : string := "LLM_CONFIGURATION".

(** The levels of [logging]. *)
Definition DEBUG : Z := 10.
Definition INFO : Z := 20.
Definition WARNING : Z := 30.
Definition ERROR : Z := 40.

(** What [get_log_level] returns: a level, or a tuple with one level in it
    (the [return] statements that end in a comma). *)
Inductive log_level :=
| Level (n : Z)
| LevelTuple (n : Z).

Definition is_lower (a : ascii) : bool :=
  let n := nat_of_ascii a in (97 <=? n)%nat && (n <=? 122)%nat.

Definition upper_ascii (a : ascii) : ascii :=
  if is_lower a then ascii_of_nat (nat_of_ascii a - 32) else a.

(** [str.upper] on ASCII text. *)
Fixpoint upper (s : string) : string :=
  match s with
  | EmptyString => EmptyString
  | String a s' => String (upper_ascii a) (upper s')
  end.

(** [get_log_level]; [env] is the process environment. *)
Definition get_log_level (env : gmap string string) : log_level :=
  let log_level := upper (default "INFO" (env !! "LOGGING_LEVEL")) in
  if bool_decide (log_level = "DEBUG") then LevelTuple DEBUG
  else if bool_decide (log_level = "WARNING") then LevelTuple WARNING
  else if bool_decide (log_level = "ERROR") then LevelTuple ERROR
  else Level INFO.

Section WithValues.

(** The values a configuration dict holds. *)
Variable value : Type.

(** [key in v] and [v[key]] for a value [v]; [None] when the operation
    raises. *)
Variable py_contains : value -> string -> option bool.
Variable py_getitem : value -> string -> option value.

(** The string [s] as a value. *)
Variable of_str : string -> value.

(** [json.loads] on a string; [None] when it raises. *)
Variable json_loads : string -> option value.

(** [logging.basicConfig(level=...)]; [false] when it raises. *)
Variable basicConfig : log_level -> bool.

(** [get_config]: a copy of the module dict. *)
Definition get_config (cfg : gmap string value) : gmap string value := cfg.

(** [update_config]: [dict.update], the new settings win. *)
Definition update_config (new_config cfg : gmap string value) : gmap string value :=
  new_config ∪ cfg.

(** [get_scraper_useragent]; [None] when it raises.  The scraper section is
    looked for with [hasattr] on the dict. *)
Definition get_scraper_useragent (cfg : gmap string value) : option value :=
  let fallback := of_str "Mozilla/5.0 (compatible; RAGChatBot/1.0;)" in
  match hasattr_dict (get_config cfg) (Some SCRAPE_CONFIGURATION) with
  | None => None
  | Some false => Some fallback        (* "user_agent" in {} *)
  | Some true =>
      match get_config cfg !! SCRAPE_CONFIGURATION with
      | None => None
      | Some scraper_config =>
          match py_contains scraper_config "user_agent" with
          | None => None
          | Some true => py_getitem scraper_config "user_agent"
          | Some false => Some fallback
          end
      end
  end.

(** [os.getenv(name, default)] followed by [json.loads]: the string of the
    environment is parsed; the default, a dict, makes [json.loads] raise a
    [TypeError]. *)
Definition loads_env (env : gmap string string) (name : string) : option value :=
  match env !! name with
  | Some text => json_loads text
  | None => None
  end.

(** [initialize]; [env] is the environment after [load_dotenv].  The result
    is whether the function returned and the module dict it left. *)
Definition initialize (env : gmap string string) (cfg : gmap string value)
    : bool * gmap string value :=
  if negb (basicConfig (get_log_level env)) then (false, cfg)
  else
    match loads_env env SCRAPE_CONFIGURATION with
    | None => (false, cfg)
    | Some scrape =>
        let cfg := <[SCRAPE_CONFIGURATION := scrape]> cfg in
        match loads_env env VECTOR_DB_CONFIGURATION with
        | None => (false, cfg)
        | Some vector_db =>
            let cfg := <[VECTOR_DB_CONFIGURATION := vector_db]> cfg in
            match loads_env env LLM_CONFIGURATION with
            | None => (false, cfg)
            | Some llm => (true, <[LLM_CONFIGURATION := llm]> cfg)
            end
        end
    end.

End WithValues.

End Config.

(** ** The vector store: [storage/document_store.py] *)

Module Storage.

Section WithCollaborators.

(** An embedding vector. *)
Variable Vector : Type.

(** [text_splitter] on the content of a document: its chunks, in order. *)
Variable split_text : string -> list string.

(** [embeddings.embed_query]; [None] when it raises. *)
Variable embed_query : string -> option Vector.

(** The builtin [hash] on strings. *)
Variable py_hash : string -> Z.

(** Whether [client.upsert] raises for the point with this id. *)
Variable upsert_raises : Z -> bool.

(** A point of the collection: vector and payload. *)
Record Point := {
  pt_vector : Vector;
  pt_text : string;
  pt_metadata : Document      (* url, title, hash, last_modified, metadata *)
}.

(** The loop over the chunks of one document, inside the [try]: it ends at
    the first chunk whose embedding or upsert raises. *)
Fixpoint store_chunks (points : gmap Z Point) (doc : Document) (chunks : list string)
    : gmap Z Point :=
  match chunks with
  | [] => points
  | chunk :: chunks' =>
      match embed_query chunk with
      | None => points
      | Some embedding =>
          let id := Z.abs (py_hash chunk) in
          if upsert_raises id then points
          else
            store_chunks
              (<[id := {| pt_vector := embedding; pt_text := chunk; pt_metadata := doc |}]> points)
              doc chunks'
      end
  end.

(** [store_documents] on the points of the collection. *)
Definition store_documents (points : gmap Z Point) (documents : list Document)
    : gmap Z Point :=
  foldl (λ points doc, store_chunks points doc (split_text (doc_content doc)))
    points documents.

(** The points one document writes, in order: the chunks before the first
    that raises. *)
Fixpoint writes_of (doc : Document) (chunks : list string) : list (Z * Point) :=
  match chunks with
  | [] => []
  | chunk :: chunks' =>
      match embed_query chunk with
      | None => []
      | Some embedding =>
          let id := Z.abs (py_hash chunk) in
          if upsert_raises id then []
          else (id, {| pt_vector := embedding; pt_text := chunk; pt_metadata := doc |})
               :: writes_of doc chunks'
      end
  end.

Definition writes (documents : list Document) : list (Z * Point) :=
  documents ≫= (λ doc, writes_of doc (split_text (doc_content doc))).

Definition write (points : gmap Z Point) (w : Z * Point) : gmap Z Point :=
  <[w.1 := w.2]> points.

(** A search hit. *)
Variable Hit : Type.

(** A float score. *)
Variable Score : Type.
Variable score_zero : Score.

(** Truth value of a score: false for zero. *)
Variable score_truthy : Score -> bool.

(** [client.search] with the query vector, [limit] and [score_threshold];
    [None] when it raises. *)
Variable client_search : Vector -> Z -> Score -> option (list Hit).

(** [search_documents]. *)
Definition search_documents (query : string) (top_k : Z)
    (similarity_threshold : option Score) : list Hit :=
  if bool_decide (query = "") then []
  else
    let top_k := if bool_decide (top_k ≤ 0)%Z then 5%Z else top_k in
    match embed_query query with
    | None => []
    | Some embedding =>
        let threshold :=
          match similarity_threshold with
          | Some t => if score_truthy t then t else score_zero
          | None => score_zero
          end in
        default [] (client_search embedding top_k threshold)
    end.

End WithCollaborators.

End Storage.

(** * Properties *)

(** ** Frontier *)

Section FrontierFacts.

Variable urljoin : string -> string -> string.




(** Offered links only ever go to the tail: the old frontier is a prefix. *)
Lemma offer_links_tail s new_links :
  urls_to_scrape (offer_links s new_links)
  = (urls_to_scrape s ++ filter (offer_ok s) new_links)%list.
Proof. reflexivity. Qed.

Lemma offer_links_visited s new_links :
  visited_urls (offer_links s new_links) = visited_urls s.
Proof. reflexivity. Qed.

(** A list of links without repetition keeps the frontier free of
    repetitions: the check of [offer_ok] is sound for such a list. *)
Lemma offer_links_NoDup s new_links :
  NoDup (urls_to_scrape s) → NoDup new_links →
  NoDup (urls_to_scrape (offer_links s new_links)).
Proof.
  intros Hf Hn. rewrite offer_links_tail. apply NoDup_app. split; [done|]. split.
  - intros x Hx Hin. apply list_elem_of_filter in Hin as [(_ & Hnot & _) _]. done.
  - by apply NoDup_filter.
Qed.

Lemma offer_links_not_visited s new_links x :
  x ∈ urls_to_scrape (offer_links s new_links) →
  x ∈ urls_to_scrape s ∨ ((x ∉ visited_urls s) ∧ x ∈ new_links).
Proof.
  rewrite offer_links_tail. intros [H|H]%elem_of_app; [by left|right].
  apply list_elem_of_filter in H as [(Hv & _ & _) Hin]. done.
Qed.

(** One link offered on its own goes to the tail exactly if it is neither
    visited nor on the frontier (and the policy allows it). *)
Lemma offer_links_single s (link : string) :
  urls_to_scrape (offer_links s [link])
  = if decide (offer_ok s link) then (urls_to_scrape s ++ [link])%list
    else urls_to_scrape s.
Proof.
  rewrite offer_links_tail. destruct (decide (offer_ok s link)) as [Hok|Hno].
  - by rewrite filter_cons_True.
  - rewrite filter_cons_False by done. apply app_nil_r.
Qed.

(** The same link twice in one list: the second copy is tested against the
    frontier without the first, and both go in. *)
Lemma offer_links_repeated s (link : string) :
  offer_ok s link →
  urls_to_scrape (offer_links s [link; link])
  = (urls_to_scrape s ++ [link; link])%list.
Proof.
  intros Hok. rewrite offer_links_tail.
  by rewrite !filter_cons_True.
Qed.

End FrontierFacts.

(** C1, on the code: a page that shows the same link in two anchors.  Both
    copies pass the test against the frontier as it was before the call, so
    the link is put on the frontier twice. *)
Theorem C1_repeated_link_enqueued_twice :
  urls_to_scrape
    (offer_links (set_visited_urls {[ "https://site" ]} site_scraper)
       (_extract_links Urllib.urljoin_simple "https://site" [Some "/b"; Some "/b"]))
  = [ "https://site/b"; "https://site/b" ]
  ∧ (urls_to_scrape ∘ self <$> exec 25 Urllib.urljoin_simple site_run
       (seed_page [Some "/b"; Some "/b"]))
    = Some [ "https://site"; "https://site/b"; "https://site/b" ].
Proof. split; vm_compute; reflexivity. Qed.

(** ** Batches *)

(** C2, as amended: in a loop turn after the first the batch is the first
    [MAX_CONCURRENT_PAGES] URLs of the frontier (all of it if it is shorter),
    in frontier order, and exactly these are removed; in the first turn the
    batch is the frontier as seeded.  In both, the batch is recorded, and the
    units created are the URLs of the batch that are not visited and that
    the policy allows, in batch order. *)
Theorem C2_batch_drain (n : nat) (r : Run) :
  loop_guard r = true →
  let frontier := urls_to_scrape (self r) in
  let r' := iterate n r in
  ∃ batch,
    batches r' = (batches r ++ [batch])%list
    ∧ (if first_run r then batch = frontier
       else batch = take n frontier
            ∧ urls_to_scrape (self r') = drop n frontier
            ∧ (length batch ≤ n)%nat
            ∧ (batch ++ urls_to_scrape (self r'))%list = frontier)
    ∧ task_url <$> tasks r' = filter (task_ok (self r)) batch
    ∧ Forall (λ u, u ∈ batch ∧ (u ∉ visited_urls (self r))) (task_url <$> tasks r').
Proof.
  intros Hg frontier r'. subst r'. unfold iterate. rewrite Hg.
  assert (Htasks : ∀ s rest batch,
    task_url <$> make_tasks (set_urls_to_scrape rest s) batch = filter (task_ok s) batch).
  { intros s rest batch. unfold make_tasks. rewrite <- list_fmap_compose.
    change (filter (task_ok (set_urls_to_scrape rest s)) batch)
      with (filter (task_ok s) batch).
    apply list_fmap_id. }
  assert (Hall : ∀ s batch,
    Forall (λ u, u ∈ batch ∧ (u ∉ visited_urls s)) (filter (task_ok s) batch)).
  { intros s batch. apply Forall_forall. intros u [[Hv _] Hin]%list_elem_of_filter. done. }
  unfold next_batch. destruct (first_run r); simpl.
  - exists frontier. rewrite Htasks. repeat split; auto.
  - exists (take n frontier). rewrite Htasks. repeat split; auto.
    + rewrite length_take. lia.
    + apply take_drop.
Qed.

(** The theorem at the second turn of a run on the small site. *)
Lemma C2_batch_drain_witness :
  loop_guard after_seed_page = true
  ∧ ∃ batch,
      batches (iterate 25 after_seed_page) = (batches after_seed_page ++ [batch])%list
      ∧ (if first_run after_seed_page then batch = urls_to_scrape (self after_seed_page)
         else batch = take 25 (urls_to_scrape (self after_seed_page))
              ∧ urls_to_scrape (self (iterate 25 after_seed_page))
                = drop 25 (urls_to_scrape (self after_seed_page))
              ∧ (length batch ≤ 25)%nat
              ∧ (batch ++ urls_to_scrape (self (iterate 25 after_seed_page)))%list
                = urls_to_scrape (self after_seed_page))
      ∧ task_url <$> tasks (iterate 25 after_seed_page)
        = filter (task_ok (self after_seed_page)) batch
      ∧ Forall (λ u, u ∈ batch ∧ (u ∉ visited_urls (self after_seed_page)))
          (task_url <$> tasks (iterate 25 after_seed_page)).
Proof.
  split; [vm_compute; reflexivity|].
  apply (C2_batch_drain 25 after_seed_page). vm_compute; reflexivity.
Defined.

(** C2, as stated, fails: the seed URL is in the first batch and again in
    the second, and page b, taken in the second batch and linked from page a
    while its own fetch is under way, is taken again in the third. *)
Lemma C2_url_in_two_batches :
  match exec 25 Urllib.urljoin_simple site_run relinked_page with
  | Some r =>
      batches r
      = [ ["https://site"];
          ["https://site"; "https://site/a"; "https://site/b"];
          ["https://site/b"] ]
      ∧ ¬ NoDup (concat (batches r))
      ∧ ¬ NoDup (concat (drop 1 (batches r)))
  | None => False
  end.
Proof.
  vm_compute. split; [reflexivity|]. split.
  - intros [Hnotin _]%NoDup_cons. apply Hnotin. by left.
  - intros [_ [_ [Hnotin _]%NoDup_cons]%NoDup_cons]%NoDup_cons.
    apply Hnotin. by left.
Qed.

(** ** Stop *)

(** The loop condition does not read the stop flag. *)
Lemma loop_guard_ignores_stop (r : Run) (b : bool) :
  loop_guard (set_self (set_stop_triggered b (self r)) r) = loop_guard r.
Proof. reflexivity. Qed.

(** C3, on the code: [stop()] is called while the seed page is being
    fetched; the unit then marks the page visited and puts its link on the
    frontier; at its next turn the scheduler, with [stop_triggered] set,
    takes that link as a new batch and creates a unit for it. *)
Theorem C3_batch_pulled_after_stop :
  match exec 25 Urllib.urljoin_simple site_run (seed_page_stopped [Some "/a"]) with
  | Some r =>
      stop_triggered (self r) = true
      ∧ loop_guard r = true
      ∧ (let r' := iterate 25 r in
         stop_triggered (self r') = true
         ∧ batches r' = [ ["https://site"]; ["https://site/a"] ]
         ∧ tasks r' = [ {| task_url := "https://site/a"; task_stage := Queued |} ])
      ∧ step 25 Urllib.urljoin_simple r Iterate = Some (iterate 25 r)
  | None => False
  end.
Proof. vm_compute. repeat split; reflexivity. Qed.

(** ** One job per site *)

(** The answer of [start_scrape] does not depend on which scrapers are
    registered. *)
Lemma start_scrape_reply_ignores_registry urlparse svc1 svc2 request robots :
  fst (start_scrape urlparse svc1 request robots)
  = fst (start_scrape urlparse svc2 request robots).
Proof.
  unfold start_scrape. destruct (check_domain _); [|done].
  destruct (extract_domain _ _) as [[h|]|]; simpl; [|done..].
  by destruct (bool_decide _).
Qed.

(** C4, on the code: a second start request for example.com while its
    scraper is registered and has visited a page.  The request is accepted,
    a second crawl is launched for the host, and the registered scraper is
    replaced by a fresh one. *)
Theorem C4_second_start_accepted :
  scrapers example_service !! "example.com" = Some example_scraper_busy
  ∧ (let (reply, svc') :=
       start_scrape Urllib.urlparse example_service example_request open_robots in
     reply = ScrapeResponse "Scraping started successfully"
     ∧ launched svc' = [ "example.com"; "example.com" ]
     ∧ scrapers svc' !! "example.com"
       = Some (WebsiteScraper_init "https://example.com" "example.com" true open_robots)
     ∧ scrapers svc' !! "example.com" ≠ Some example_scraper_busy).
Proof.
  split; [vm_compute; reflexivity|].
  vm_compute. repeat split; try reflexivity. discriminate.
Qed.

(** The rejection is reached for a host that is the name of a dict method,
    with no scraper registered at all. *)
Example start_scrape_rejects_method_name :
  fst (start_scrape Urllib.urlparse Service_init
         {| url := "http://keys"; schedule_interval_hours := None |} open_robots)
  = ErrorResponse "Scraper for domain keys already exists" HTTP_400_BAD_REQUEST.
Proof. vm_compute. reflexivity. Qed.

(** ** Steps of a run *)

Section RunFacts.

Variable n : nat.
Variable urljoin : string -> string -> string.

Lemma same_policy_refl s : same_policy s s.
Proof. by repeat split. Qed.

Lemma same_policy_trans s1 s2 s3 :
  same_policy s1 s2 → same_policy s2 s3 → same_policy s1 s3.
Proof. intros (?&?&?&?) (?&?&?&?). repeat split; congruence. Qed.

Lemma same_policy_can_fetch s s' (u : string) :
  same_policy s s' → _can_fetch s' u = _can_fetch s u.
Proof. intros (Ho & Hr & Hu & _). unfold _can_fetch. by rewrite Ho, Hr, Hu. Qed.

(** What one event of a unit does to the scraper. *)
Lemma unit_step_effect s (u : string) st e s' st' :
  unit_step urljoin s u st e = Some (s', st') →
  same_policy s s'
  ∧ visited_urls s ⊆ visited_urls s'
  ∧ visited_urls s' ⊆ {[u]} ∪ visited_urls s
  ∧ (visited_urls s' ≠ visited_urls s → st = Fetching ∧ st' = Extracting)
  ∧ ∃ added, urls_to_scrape s' = (urls_to_scrape s ++ added)%list
             ∧ Forall (offer_ok s) added.
Proof.
  intros H.
  assert (Hgrow : ∀ V : gset string, V ⊆ {[u]} ∪ V) by (intros V; apply union_subseteq_r).
  assert (Hnil : ∀ l : list string,
    ∃ added, l = (l ++ added)%list ∧ Forall (offer_ok s) added).
  { intros l. exists []. split; [by rewrite app_nil_r|constructor]. }
  assert (Hsame : ∀ st0 st1,
    same_policy s s ∧ visited_urls s ⊆ visited_urls s
    ∧ visited_urls s ⊆ {[u]} ∪ visited_urls s
    ∧ (visited_urls s ≠ visited_urls s → st0 = Fetching ∧ st1 = Extracting)
    ∧ ∃ added, urls_to_scrape s = (urls_to_scrape s ++ added)%list
               ∧ Forall (offer_ok s) added).
  { intros st0 st1. split; [apply same_policy_refl|]. split; [reflexivity|].
    split; [apply Hgrow|]. split; [intros Hne; by destruct Hne|]. apply Hnil. }
  destruct st, e as [|o|c|l]; simpl in H; try discriminate.
  - case_bool_decide; injection H as <- <-; apply Hsame.
  - destruct o; injection H as <- <-; try apply Hsame.
    split; [exact (same_policy_refl s)|]. simpl.
    split; [apply Hgrow|]. split; [reflexivity|]. split; [intros _; by split|].
    apply Hnil.
  - destruct c; injection H as <- <-; [|apply Hsame].
    split; [exact (same_policy_refl s)|]. simpl.
    split; [reflexivity|]. split; [apply Hgrow|]. split; [intros Hne; by destruct Hne|].
    apply Hnil.
  - destruct l as [elements|]; injection H as <- <-; [|apply Hsame].
    split; [exact (same_policy_refl s)|]. simpl.
    split; [reflexivity|]. split; [apply Hgrow|]. split; [intros Hne; by destruct Hne|].
    eexists. split; [reflexivity|].
    apply Forall_forall. intros x Hx. apply list_elem_of_filter in Hx. apply Hx.
Qed.

(** The stages a unit goes through, in order. *)
Lemma unit_step_stage s (u : string) st e s' st' :
  unit_step urljoin s u st e = Some (s', st') →
  (st = Queued ∧ (st' = Fetching ∨ st' = Finished))
  ∨ (st = Fetching ∧ (st' = Extracting ∨ st' = Finished))
  ∨ (st = Extracting ∧ st' = Linking)
  ∨ (st = Linking ∧ st' = Finished).
Proof.
  intros H. destruct st, e as [|o|c|l]; simpl in H; try discriminate.
  - case_bool_decide; simplify_eq; auto.
  - destruct o; simplify_eq; auto.
  - destruct c; simplify_eq; auto 6.
  - destruct l; simplify_eq; auto 6.
Qed.

Lemma step_unit_inv r i e r' :
  step n urljoin r (Unit i e) = Some r' →
  ∃ t s' st',
    tasks r !! i = Some t
    ∧ unit_step urljoin (self r) (task_url t) (task_stage t) e = Some (s', st')
    ∧ (task_stage t = Queued → permits_taken (tasks r) < n)
    ∧ r' = set_tasks (<[i := {| task_url := task_url t; task_stage := st' |}]> (tasks r))
             (set_self s' r).
Proof.
  unfold step. destruct (tasks r !! i) as [t|] eqn:Ht; [|done].
  destruct (bool_decide (task_stage t = Queued) && _) eqn:Hq; [done|].
  destruct (unit_step _ _ _ _ _) as [[s' st']|] eqn:Hu; [|done].
  intros [= <-]. exists t, s', st'. repeat split; try done.
  intros Hst. rewrite bool_decide_eq_true_2 in Hq by done. simpl in Hq.
  apply negb_false_iff, Nat.ltb_lt in Hq. done.
Qed.

Lemma exec_invariant (P : Run → Prop) :
  (∀ r ev r', P r → step n urljoin r ev = Some r' → P r') →
  ∀ evs r r', P r → exec n urljoin r evs = Some r' → P r'.
Proof.
  intros Hstep. induction evs as [|ev evs IH]; intros r r' HP; simpl.
  - by intros [= <-].
  - destruct (step n urljoin r ev) as [r1|] eqn:Hs; [|done]. eauto.
Qed.

(** The visited set after one event of a unit: the URL is added by the
    step [adds_url] names, and no other step touches the set. *)
Lemma unit_step_visited s (u : string) st e s' st' :
  unit_step urljoin s u st e = Some (s', st') →
  visited_urls s'
  = if adds_url st e then {[u]} ∪ visited_urls s else visited_urls s.
Proof.
  intros H. destruct st, e as [|o|c|l]; simpl in H; try discriminate.
  - by case_bool_decide; injection H as <- <-.
  - by destruct o; injection H as <- <-.
  - by destruct c; injection H as <- <-.
  - by destruct l; injection H as <- <-.
Qed.

(** A fetch that did not get through [goto] and the delay ends the unit
    and leaves the scraper as it was. *)
Lemma unit_step_fetch_not_ok s (u : string) st o s' st' :
  o ≠ FetchOk →
  unit_step urljoin s u st (FetchDone o) = Some (s', st') →
  st = Fetching ∧ s' = s ∧ st' = Finished.
Proof.
  intros Ho H. destruct st; simpl in H; try discriminate.
  by destruct o; simplify_eq.
Qed.

(** Nothing but [stop()] takes a URL out of the visited set. *)
Lemma step_visited_grows r ev r' :
  is_stop ev = false →
  step n urljoin r ev = Some r' →
  visited_urls (self r) ⊆ visited_urls (self r').
Proof.
  destruct ev as [|i e|]; [intros _|intros _|done].
  - simpl. destruct (running r && _); [|done]. intros [= <-].
    unfold iterate. destruct (loop_guard r); [|done].
    by destruct (next_batch n (first_run r) (urls_to_scrape (self r))).
  - intros (t & s' & st' & _ & Hu & _ & ->)%step_unit_inv.
    apply unit_step_effect in Hu as (_ & Hsub & _). exact Hsub.
Qed.

Lemma exec_visited_grows evs r r' :
  existsb is_stop evs = false →
  exec n urljoin r evs = Some r' →
  visited_urls (self r) ⊆ visited_urls (self r').
Proof.
  revert r. induction evs as [|ev evs IH]; intros r Hno; simpl in *.
  - by intros [= <-].
  - apply orb_false_iff in Hno as [Hev Hno].
    destruct (step n urljoin r ev) as [r1|] eqn:Hs; [|done]. intros Hexec.
    etrans; [by eapply step_visited_grows|by apply IH].
Qed.

Lemma count_insert (p : task → bool) (ts : list task) i t t' :
  ts !! i = Some t →
  length (List.filter p (<[i:=t']> ts)) + (if p t then 1 else 0)
  = length (List.filter p ts) + (if p t' then 1 else 0).
Proof.
  revert i. induction ts as [|x ts IH]; intros [|i] Hi; simplify_eq/=.
  - destruct (p t), (p t'); simpl; lia.
  - specialize (IH _ Hi). destruct (p x); simpl; lia.
Qed.

End RunFacts.

(** ** Fetch units *)

Lemma _scrape_page_visited urljoin s (u : string) pb :
  visited_urls (_scrape_page urljoin s u pb)
  = if bool_decide (u ∈ visited_urls s) then visited_urls s
    else if bool_decide (pb_fetch pb = FetchOk) then {[u]} ∪ visited_urls s
    else visited_urls s.
Proof.
  destruct pb as [o c l]. unfold _scrape_page, unit_events. simpl.
  case_bool_decide; [reflexivity|].
  destruct o; try reflexivity. destruct c, l; reflexivity.
Qed.

(** C5, as amended: a unit adds its URL to the visited set at one point
    only, when [page.goto] and the crawl delay after it have both returned.
    Whatever runs between the steps of the unit:
    - the one step that adds the URL is the step out of [Fetching] with
      [FetchOk]; every other step of a unit, in particular the end of
      content extraction and of link discovery, with or without a result,
      leaves the visited set as it is;
    - if [new_page] or [goto] raises or is cancelled, or the delay is
      cancelled after [goto] has returned, the unit ends there and the
      scraper is as it was;
    - once the URL has been added it is in the visited set at every later
      point of the run, as long as [stop()] is not called.
    And for a unit that runs with nothing in between, the URL is in the
    visited set at the end exactly if it was there before or [goto] and the
    delay both returned. *)
Theorem C5_visited_added_after_delay (n : nat) (urljoin : string → string → string) :
  (∀ s (u : string) st e s' st',
     unit_step urljoin s u st e = Some (s', st') →
     visited_urls s'
     = if adds_url st e then {[u]} ∪ visited_urls s else visited_urls s)
  ∧ (∀ r i t o r1,
       tasks r !! i = Some t →
       o ≠ FetchOk →
       step n urljoin r (Unit i (FetchDone o)) = Some r1 →
       self r1 = self r
       ∧ tasks r1 !! i = Some {| task_url := task_url t; task_stage := Finished |})
  ∧ (∀ r i t r1 evs r',
       tasks r !! i = Some t →
       step n urljoin r (Unit i (FetchDone FetchOk)) = Some r1 →
       existsb is_stop evs = false →
       exec n urljoin r1 evs = Some r' →
       task_url t ∈ visited_urls (self r1) ∧ task_url t ∈ visited_urls (self r'))
  ∧ (∀ s (u : string) pb,
       (pb_fetch pb ≠ FetchOk →
        visited_urls (_scrape_page urljoin s u pb) = visited_urls s)
       ∧ (pb_fetch pb = FetchOk → u ∈ visited_urls (_scrape_page urljoin s u pb))
       ∧ (u ∈ visited_urls (_scrape_page urljoin s u pb)
          ↔ u ∈ visited_urls s ∨ pb_fetch pb = FetchOk)).
Proof.
  split; [|split; [|split]].
  - intros s u st e s' st'. apply unit_step_visited.
  - intros r i t o r1 Ht Ho (t' & s' & st' & Ht' & Hu & _ & ->)%step_unit_inv.
    rewrite Ht in Ht'. injection Ht' as <-.
    apply (unit_step_fetch_not_ok _ _ _ _ _ _ _ Ho) in Hu as (_ & -> & ->).
    split; [reflexivity|]. simpl.
    apply list_lookup_insert_eq. by eapply lookup_lt_Some.
  - intros r i t r1 evs r' Ht Hstep Hno Hexec.
    assert (Hin : task_url t ∈ visited_urls (self r1)).
    { apply step_unit_inv in Hstep as (t' & s' & st' & Ht' & Hu & _ & ->).
      rewrite Ht in Ht'. injection Ht' as <-.
      assert (Hadd : adds_url (task_stage t) (FetchDone FetchOk) = true).
      { by destruct (task_stage t). }
      apply unit_step_visited in Hu. rewrite Hadd in Hu. simpl. rewrite Hu.
      apply elem_of_union_l, elem_of_singleton_2. reflexivity. }
    split; [exact Hin|].
    by apply (exec_visited_grows _ _ _ _ _ Hno Hexec).
  - intros s u pb. rewrite _scrape_page_visited.
    case_bool_decide as Hv.
    + split; [done|]. split; [done|]. split; [by left|done].
    + case_bool_decide as Hf.
      * assert (Hin : u ∈ ({[u]} ∪ visited_urls s : gset string))
          by (apply elem_of_union_l, elem_of_singleton_2; reflexivity).
        split; [done|]. split; [done|]. split; [by right|done].
      * split; [done|]. split; [done|]. split; [by left|]. intros [?|?]; done.
Qed.

(** The theorem on the small site: the seed page is fetched, its content
    and its links cannot be extracted, and the scheduler takes its next
    turn; and on a page whose fetch raises. *)
Lemma C5_visited_added_after_delay_witness :
  "https://site" ∈ visited_urls (self seed_page_unreadable)
  ∧ visited_urls
      (_scrape_page Urllib.urljoin_simple site_scraper "https://site/x"
         {| pb_fetch := GotoRaises; pb_content := None; pb_links := None |})
    = visited_urls site_scraper.
Proof.
  pose proof (C5_visited_added_after_delay 25 Urllib.urljoin_simple)
    as (_ & _ & Hrun & Hunit).
  split.
  - apply (Hrun seed_page_fetching 0%nat
             {| task_url := "https://site"; task_stage := Fetching |}
             (default site_run
                (step 25 Urllib.urljoin_simple seed_page_fetching
                   (Unit 0 (FetchDone FetchOk))))
             [Unit 0 (ContentDone None); Unit 0 (LinksDone None); Iterate]).
    + vm_compute; reflexivity.
    + vm_compute; reflexivity.
    + reflexivity.
    + vm_compute; reflexivity.
  - apply (proj1 (Hunit site_scraper "https://site/x"
                    {| pb_fetch := GotoRaises; pb_content := None; pb_links := None |})).
    discriminate.
Defined.

(** C5, as stated, fails: [goto] returns, so the fetch has succeeded, and
    the crawl delay that follows is cancelled.  The unit ends without the
    URL in the visited set; in the run on the small site the unit for the
    seed page is finished and the visited set is empty. *)
Lemma C5_delay_cancelled_not_visited :
  fetch_failed SleepCancelled = false
  ∧ ("https://site/x"
       ∉ visited_urls
           (_scrape_page Urllib.urljoin_simple site_scraper "https://site/x"
              {| pb_fetch := SleepCancelled; pb_content := None; pb_links := None |}))
  ∧ (λ r, (task_stage <$> tasks r, size (visited_urls (self r))))
      <$> exec 25 Urllib.urljoin_simple site_run
            [Iterate; Unit 0 Enter; Unit 0 (FetchDone SleepCancelled)]
    = Some ([Finished], 0%nat).
Proof.
  split; [reflexivity|]. split; [|vm_compute; reflexivity].
  apply (bool_decide_unpack _). vm_compute. exact I.
Qed.

(** ** Link extraction *)




(** The test on the href is [startswith]: an href that goes on after the
    base URL with further letters of a host name, and an href that starts
    with two slashes and names a host, are both kept. *)
Example _extract_links_other_host_kept :
  _extract_links Urllib.urljoin_simple "https://site"
    [Some "https://site.evil.com/x"; Some "//cdn.other.com/x"]
  = [ "https://site.evil.com/x"; "https://cdn.other.com/x" ].
Proof. vm_compute. reflexivity. Qed.

(** ** Stop and progress *)

(** C7: after [stop] the frontier and the visited set are empty, whatever
    state the scraper was in, and [progress] then returns the snapshot with
    both counts 0; [stop] can be called at every point of a run. *)
Theorem C7_stop_then_progress (n : nat) (urljoin : string -> string -> string) (r : Run) :
  let s := self r in
  length (urls_to_scrape (stop s)) = 0%nat
  ∧ size (visited_urls (stop s)) = 0%nat
  ∧ stop_triggered (stop s) = true
  ∧ progress (stop s)
    = ({| p_visited_urls := 0; p_remaining_urls := 0;
          p_last_scraped_time := last_scraped_time s |}, stop s)
  ∧ self <$> step n urljoin r Stop = Some (stop s).
Proof. repeat split. Qed.

(** C9: [progress] returns the size of the visited set, the length of the
    frontier and the time of the last run, and hands the scraper back as it
    got it. *)
Theorem C9_progress_read_only (s : WebsiteScraper) :
  p_visited_urls (fst (progress s)) = size (visited_urls s)
  ∧ p_remaining_urls (fst (progress s)) = length (urls_to_scrape s)
  ∧ p_last_scraped_time (fst (progress s)) = last_scraped_time s
  ∧ snd (progress s) = s
  ∧ visited_urls (snd (progress s)) = visited_urls s
  ∧ urls_to_scrape (snd (progress s)) = urls_to_scrape s
  ∧ stop_triggered (snd (progress s)) = stop_triggered s
  ∧ last_scraped_time (snd (progress s)) = last_scraped_time s.
Proof. repeat split. Qed.

(** ** Policy guard *)

(** C8: with the override flag set every URL may be fetched, whatever the
    robots parser is; with the flag clear, a URL for which the evaluation of
    the robots rules raises may not. *)
Theorem C8_can_fetch_policy (s : WebsiteScraper) (u : string) :
  (override_robots s = true → _can_fetch s u = true)
  ∧ (override_robots s = false →
     ∀ parser, robots_parser s = Some parser →
       rp_can_fetch parser (user_agent s) u = None →
       _can_fetch s u = false).
Proof.
  unfold _can_fetch. split.
  - intros ->. reflexivity.
  - intros -> parser -> ->. reflexivity.
Qed.

(** The theorem on a scraper with the override and a parser that raises,
    and on the same scraper without the override. *)
Lemma C8_can_fetch_policy_witness :
  _can_fetch (WebsiteScraper_init "https://site" "site" true broken_robots)
    "https://site/private" = true
  ∧ _can_fetch (WebsiteScraper_init "https://site" "site" false broken_robots)
      "https://site/private" = false.
Proof.
  split.
  - apply (proj1 (C8_can_fetch_policy
                    (WebsiteScraper_init "https://site" "site" true broken_robots)
                    "https://site/private")).
    reflexivity.
  - apply (proj2 (C8_can_fetch_policy
                    (WebsiteScraper_init "https://site" "site" false broken_robots)
                    "https://site/private") eq_refl broken_robots); reflexivity.
Defined.

(** ** Host filter of the MCP server *)

(** C10, as amended: with an empty list of allowed hosts, [is_url_allowed]
    answers true exactly for the strings that [urlparse] accepts, and the
    tools forward exactly those; a string on which [urlparse] raises is
    refused. *)
Theorem C10_allowed_iff_parsed (urlparse : string -> option Urllib.ParseResult) (u : string) :
  is_url_allowed [] urlparse u = bool_decide (is_Some (urlparse u))
  ∧ (is_url_allowed [] urlparse u = true ↔ is_Some (urlparse u))
  ∧ tool_gate [] urlparse u
    = match urlparse u with Some _ => Forwarded u | None => NotAllowed end.
Proof.
  unfold tool_gate, is_url_allowed. destruct (urlparse u) as [p|]; simpl.
  - repeat split; eauto.
  - repeat split; [done|]. intros [? ?]. done.
Qed.

(** C10, as stated, fails: a network location with an opening square
    bracket alone makes [urlparse] raise, and the answer is false. *)
Lemma C10_unparsed_url_refused :
  Urllib.urlparse "http://[" = None
  ∧ is_url_allowed [] Urllib.urlparse "http://[" = false
  ∧ tool_gate [] Urllib.urlparse "http://[" = NotAllowed.
Proof. repeat split; vm_compute; reflexivity. Qed.

(** * Further properties of the code *)

(** ** Runs of the crawl *)

Section RunInvariants.

Variable n : nat.
Variable urljoin : string -> string -> string.

(** X1: While the units of a batch run (no turn of the scheduler, no stop), the
    visited set only grows, the frontier only grows at its tail, and the
    batch history and the URLs of the units stay as they are. *)
Theorem gather_only_grows (r r' : Run) (evs : list event) :
  forallb is_unit_event evs = true →
  exec n urljoin r evs = Some r' →
  visited_urls (self r) ⊆ visited_urls (self r')
  ∧ (∃ added, urls_to_scrape (self r') = (urls_to_scrape (self r) ++ added)%list)
  ∧ batches r' = batches r
  ∧ task_url <$> tasks r' = task_url <$> tasks r.
Proof.
  revert r. induction evs as [|ev evs IH]; intros r Hall Hexec; simpl in *.
  - injection Hexec as <-. split; [reflexivity|]. split; [|done].
    exists []. by rewrite app_nil_r.
  - apply andb_prop in Hall as [Hev Hall].
    destruct ev as [|i e|]; try discriminate.
    destruct (step n urljoin r (Unit i e)) as [r1|] eqn:Hs; [|done].
    apply step_unit_inv in Hs as (t & s' & st' & Ht & Hu & _ & ->).
    apply unit_step_effect in Hu as (_ & Hsub & _ & _ & added & Hadd & _).
    destruct (IH _ Hall Hexec) as (Hv & (added' & Hf) & Hb & Hts).
    simpl in *. split; [by etrans|]. split; [|split; [done|]].
    + exists (added ++ added')%list. by rewrite Hf, Hadd, app_assoc.
    + rewrite Hts, list_fmap_insert. simpl.
      apply list_insert_id. by rewrite list_lookup_fmap, Ht.
Qed.

Lemma policy_respected_step s0 r ev r' :
  policy_respected s0 r → step n urljoin r ev = Some r' → policy_respected s0 r'.
Proof.
  intros (Hp & Ht & Hv & Hf) Hs. destruct ev as [|i e|].
  - unfold step in Hs. destruct (running r && _); [|done]. injection Hs as <-.
    unfold iterate. destruct (loop_guard r); [|done].
    destruct (next_batch n (first_run r) (urls_to_scrape (self r))) as [batch rest] eqn:Hnb.
    split; [exact Hp|]. simpl. split; [|split; [exact Hv|]].
    + unfold make_tasks. apply Forall_fmap, Forall_forall. intros u Hu.
      apply list_elem_of_filter in Hu as [[_ Hok] _]. simpl.
      rewrite <- Hok. symmetry. by apply same_policy_can_fetch.
    + unfold next_batch in Hnb. destruct (first_run r); injection Hnb as <- <-; [done|].
      by apply Forall_drop.
  - apply step_unit_inv in Hs as (t & s' & st' & Hti & Hu & _ & ->).
    apply unit_step_effect in Hu as (Hsame & _ & Hsub & _ & added & Hadd & Hok).
    pose proof (Forall_lookup_1 _ _ _ _ Ht Hti) as Hallowed. simpl in Hallowed.
    split; [by eapply same_policy_trans|]. simpl. split; [|split].
    + by apply Forall_insert.
    + intros u Hin. apply Hsub in Hin. apply elem_of_union in Hin as [Hin|Hin]; [|auto].
      apply elem_of_singleton in Hin as ->. done.
    + rewrite Hadd. apply Forall_app. split; [done|].
      eapply Forall_impl; [exact Hok|]. intros u (_ & _ & Hcf). right.
      rewrite <- Hcf. symmetry. by apply same_policy_can_fetch.
  - injection Hs as <-. destruct Hp as (?&?&?&?).
    split; [by repeat split|]. simpl. split; [done|]. split; [|constructor].
    intros u Hin. by apply not_elem_of_empty in Hin.
Qed.

(** X2: Along every schedule of a run, with stops in it or not, the URLs for
    which a unit is created, the URLs marked visited and the URLs put on the
    frontier after the base URL are all URLs that [_can_fetch] allows. *)
Theorem policy_respected_in_runs (s : WebsiteScraper) (now : datetime) (budget : Z)
    (evs : list event) (r : Run) :
  exec n urljoin (scrape_website_begin s now budget) evs = Some r →
  policy_respected s r.
Proof.
  apply (exec_invariant n urljoin (policy_respected s)).
  - intros ? ? ?. apply policy_respected_step.
  - split; [by repeat split|]. simpl. split; [constructor|]. split.
    + intros u Hin. by apply not_elem_of_empty in Hin.
    + repeat constructor.
Qed.

Lemma holds_permit_stage (t : task) :
  holds_permit t = match task_stage t with
                   | Queued | Finished => false
                   | _ => true
                   end.
Proof.
  unfold holds_permit. destruct (task_stage t).
  - apply bool_decide_eq_false_2. intros [H _]. by apply H.
  - apply bool_decide_eq_true_2. by split.
  - apply bool_decide_eq_true_2. by split.
  - apply bool_decide_eq_true_2. by split.
  - apply bool_decide_eq_false_2. intros [_ H]. by apply H.
Qed.

Lemma make_tasks_queued s batch :
  Forall (λ t, task_stage t = Queued) (make_tasks s batch).
Proof. unfold make_tasks. apply Forall_fmap, Forall_forall. done. Qed.

Lemma permits_taken_queued ts :
  Forall (λ t, task_stage t = Queued) ts → permits_taken ts = 0%nat.
Proof.
  unfold permits_taken. induction 1 as [|t ts Hq _ IH]; [done|]. simpl.
  by rewrite holds_permit_stage, Hq.
Qed.

Lemma pending_queued ts :
  Forall (λ t, task_stage t = Queued) ts → pending ts = length ts.
Proof.
  unfold pending. induction 1 as [|t ts Hq _ IH]; [done|]. simpl.
  unfold before_add at 1. rewrite Hq. simpl. by rewrite IH.
Qed.

Lemma pending_le_length ts : (pending ts ≤ length ts)%nat.
Proof.
  unfold pending. induction ts as [|t ts IH]; simpl; [done|].
  destruct (before_add t); simpl; lia.
Qed.

Lemma semaphore_step r ev r' :
  (permits_taken (tasks r) ≤ n)%nat → step n urljoin r ev = Some r' →
  (permits_taken (tasks r') ≤ n)%nat.
Proof.
  intros Hle Hs. destruct ev as [|i e|].
  - unfold step in Hs. destruct (running r && _); [|done]. injection Hs as <-.
    unfold iterate. destruct (loop_guard r); [|done].
    destruct (next_batch _ _ _) as [batch rest]. simpl.
    rewrite permits_taken_queued by apply make_tasks_queued. lia.
  - apply step_unit_inv in Hs as (t & s' & st' & Hti & Hu & Hfree & ->). simpl.
    pose proof (count_insert holds_permit (tasks r) i t
                  {| task_url := task_url t; task_stage := st' |} Hti) as Hc.
    rewrite !holds_permit_stage in Hc. simpl in Hc. unfold permits_taken in *.
    apply unit_step_stage in Hu
      as [[Hst Hst']|[[Hst Hst']|[[Hst Hst']|[Hst Hst']]]]; rewrite Hst in *.
    + specialize (Hfree eq_refl). destruct Hst' as [->| ->]; simpl in Hc; lia.
    + destruct Hst' as [->| ->]; simpl in Hc; lia.
    + subst st'. simpl in Hc. lia.
    + subst st'. simpl in Hc. lia.
  - by injection Hs as <-.
Qed.

(** X3: Along every schedule of a run, the units that are between entering
    [_scrape_page] and leaving it are never more than the permits of the
    semaphore. *)
Theorem semaphore_never_exceeded (s : WebsiteScraper) (now : datetime) (budget : Z)
    (evs : list event) (r : Run) :
  exec n urljoin (scrape_website_begin s now budget) evs = Some r →
  (permits_taken (tasks r) ≤ n)%nat.
Proof.
  apply (exec_invariant n urljoin (λ r, (permits_taken (tasks r) ≤ n)%nat)).
  - intros ? ? ?. apply semaphore_step.
  - simpl. unfold permits_taken. simpl. lia.
Qed.

End RunInvariants.

(** The theorem on the units of the first batch of the small site. *)
Lemma gather_only_grows_witness :
  forallb is_unit_event (tail (seed_page [Some "/a"])) = true
  ∧ exec 25 Urllib.urljoin_simple first_batch_run (tail (seed_page [Some "/a"]))
    = Some after_seed_page
  ∧ visited_urls (self first_batch_run) ⊆ visited_urls (self after_seed_page)
  ∧ (∃ added, urls_to_scrape (self after_seed_page)
              = (urls_to_scrape (self first_batch_run) ++ added)%list)
  ∧ batches after_seed_page = batches first_batch_run
  ∧ task_url <$> tasks after_seed_page = task_url <$> tasks first_batch_run.
Proof.
  split; [reflexivity|]. split; [vm_compute; reflexivity|].
  apply (gather_only_grows 25 Urllib.urljoin_simple first_batch_run after_seed_page
           (tail (seed_page [Some "/a"]))); vm_compute; reflexivity.
Defined.

(** The theorem on the site with the robots file observed. *)
Lemma policy_respected_in_runs_witness :
  exec 25 Urllib.urljoin_simple (scrape_website_begin guarded_scraper 0%Z 10%Z)
    (seed_page [Some "/private/x"; Some "/a"] ++ [Iterate; Unit 0 Enter])%list
  = Some guarded_run
  ∧ policy_respected guarded_scraper guarded_run.
Proof.
  split; [vm_compute; reflexivity|].
  apply (policy_respected_in_runs 25 Urllib.urljoin_simple guarded_scraper 0%Z 10%Z
           (seed_page [Some "/private/x"; Some "/a"] ++ [Iterate; Unit 0 Enter])%list).
  vm_compute; reflexivity.
Defined.

Lemma semaphore_never_exceeded_witness :
  exec 25 Urllib.urljoin_simple (scrape_website_begin guarded_scraper 0%Z 10%Z)
    (seed_page [Some "/private/x"; Some "/a"] ++ [Iterate; Unit 0 Enter])%list
  = Some guarded_run
  ∧ (permits_taken (tasks guarded_run) ≤ 25)%nat.
Proof.
  split; [vm_compute; reflexivity|].
  apply (semaphore_never_exceeded 25 Urllib.urljoin_simple guarded_scraper 0%Z 10%Z
           (seed_page [Some "/private/x"; Some "/a"] ++ [Iterate; Unit 0 Enter])%list).
  vm_compute; reflexivity.
Defined.

Section Budget.

Variable n : nat.
Variable urljoin : string -> string -> string.

Lemma size_add_one (u : string) (V W : gset string) :
  W ⊆ {[u]} ∪ V → (size W ≤ S (size V))%nat.
Proof.
  intros Hsub. apply subseteq_size in Hsub.
  rewrite size_union_alt, size_singleton in Hsub.
  assert (size (V ∖ {[u]}) ≤ size V)%nat by (apply subseteq_size, subseteq_difference_l; reflexivity).
  lia.
Qed.

Lemma within_budget_step budget r ev r' :
  within_budget n budget r → step n urljoin r ev = Some r' → within_budget n budget r'.
Proof.
  intros (Hm & Hb & Hl & Hf) Hs. destruct ev as [|i e|].
  - unfold step in Hs. destruct (running r && _); [|done]. injection Hs as <-.
    unfold iterate. destruct (loop_guard r) eqn:Hg;
      [|exact (conj Hm (conj Hb (conj Hl Hf)))].
    destruct (next_batch n (first_run r) (urls_to_scrape (self r))) as [batch rest] eqn:Hnb.
    apply andb_prop in Hg as [_ Hlt]. apply bool_decide_eq_true in Hlt.
    assert (Hbatch : (length batch ≤ Nat.max n 1)%nat).
    { unfold next_batch in Hnb. destruct (first_run r); injection Hnb as <- <-.
      - destruct (Hf eq_refl) as [_ Hone]. lia.
      - rewrite length_take. lia. }
    assert (Hlen : (length (make_tasks (set_urls_to_scrape rest (self r)) batch)
                    ≤ length batch)%nat).
    { unfold make_tasks. rewrite length_fmap. apply length_filter. }
    unfold within_budget. simpl.
    rewrite pending_queued by apply make_tasks_queued.
    split; [done|]. split; [lia|]. split; [lia|]. intros [=].
  - apply step_unit_inv in Hs as (t & s' & st' & Hti & Hu & _ & ->).
    destruct (first_run r) eqn:Hfr.
    { destruct (Hf eq_refl) as [Hnil _]. by rewrite Hnil in Hti. }
    pose proof (count_insert before_add (tasks r) i t
                  {| task_url := task_url t; task_stage := st' |} Hti) as Hc.
    assert (Hbt : ∀ x, before_add x = match task_stage x with
                                      | Queued | Fetching => true
                                      | _ => false
                                      end) by reflexivity.
    rewrite !Hbt in Hc. simpl in Hc. clear Hbt.
    pose proof (unit_step_stage _ _ _ _ _ _ _ Hu) as Hstage.
    apply unit_step_effect in Hu as (_ & _ & Hsub & Hchg & _).
    unfold within_budget. simpl. rewrite length_insert, Hfr.
    split; [done|]. split; [|split; [done|intros [=]]].
    unfold pending in *.
    destruct (decide (visited_urls s' = visited_urls (self r))) as [Heq|Hne].
    + rewrite Heq.
      destruct Hstage as [[Hst Hst']|[[Hst Hst']|[[Hst Hst']|[Hst Hst']]]];
        rewrite Hst in Hc;
        try (destruct Hst' as [->| ->]); try subst st'; simpl in Hc; lia.
    + destruct (Hchg Hne) as [Hst ->]. rewrite Hst in Hc. simpl in Hc.
      apply size_add_one in Hsub. lia.
  - injection Hs as <-. unfold within_budget.
    change (visited_urls (self (set_self (stop (self r)) r))) with (∅ : gset string).
    rewrite size_empty. simpl.
    pose proof (pending_le_length (tasks r)).
    split; [done|]. split; [lia|]. split; [done|].
    intros Hfr. destruct (Hf Hfr) as [-> _]. split; [done|]. simpl. lia.
Qed.

(** X4: Along every schedule of a run, the number of visited pages stays below
    the page budget plus one batch: [max_pages] is tested between batches
    only, so a run can pass it by as many pages as one batch holds, and by
    no more. *)
Theorem page_budget_overshoot_bounded (s : WebsiteScraper) (now : datetime) (budget : Z)
    (evs : list event) (r : Run) :
  exec n urljoin (scrape_website_begin s now budget) evs = Some r →
  (Z.of_nat (size (visited_urls (self r)))
   ≤ Z.max 0 (budget - 1) + Z.of_nat (Nat.max n 1))%Z.
Proof.
  intros Hexec.
  assert (Hinv : within_budget n budget r).
  { revert Hexec. apply (exec_invariant n urljoin (within_budget n budget)).
    - intros ? ? ?. apply within_budget_step.
    - unfold within_budget.
      change (visited_urls (self (scrape_website_begin s now budget)))
        with (∅ : gset string).
      rewrite size_empty.
      change (tasks (scrape_website_begin s now budget)) with (@nil task).
      change (pending []) with 0%nat. change (length (@nil task)) with 0%nat.
      split; [reflexivity|]. split; [lia|]. split; [lia|].
      intros _. split; [reflexivity|]. simpl. lia. }
  destruct Hinv as (_ & Hb & _). lia.
Qed.

End Budget.

(** The theorem on the small site. *)
Lemma page_budget_overshoot_bounded_witness :
  exec 25 Urllib.urljoin_simple (scrape_website_begin site_scraper 0%Z 10%Z)
    (seed_page [Some "/a"])
  = Some after_seed_page
  ∧ (Z.of_nat (size (visited_urls (self after_seed_page)))
     ≤ Z.max 0 (10 - 1) + Z.of_nat (Nat.max 25 1))%Z.
Proof.
  split; [vm_compute; reflexivity|].
  apply (page_budget_overshoot_bounded 25 Urllib.urljoin_simple site_scraper 0%Z 10%Z
           (seed_page [Some "/a"])).
  vm_compute; reflexivity.
Defined.

(** ** Offers *)

(** X5: When neither the frontier nor the list of discovered links repeats a
    URL, the frontier after the offer repeats none; it holds the URLs it
    held and, of the discovered links, those not visited and allowed by the
    policy; the visited set is not touched. *)
Theorem offer_links_sound (s : WebsiteScraper) (new_links : list string) :
  NoDup (urls_to_scrape s) → NoDup new_links →
  NoDup (urls_to_scrape (offer_links s new_links))
  ∧ (∀ x, x ∈ urls_to_scrape (offer_links s new_links) ↔
          x ∈ urls_to_scrape s
          ∨ (x ∈ new_links ∧ (x ∉ visited_urls s) ∧ _can_fetch s x = true))
  ∧ visited_urls (offer_links s new_links) = visited_urls s.
Proof.
  intros Hf Hn. split; [by apply offer_links_NoDup|]. split; [|reflexivity].
  intros x. rewrite offer_links_tail, elem_of_app, list_elem_of_filter. split.
  - intros [Hin|[(Hv & _ & Hc) Hin]]; [by left|by right].
  - intros [Hin|(Hin & Hv & Hc)]; [by left|].
    destruct (decide (x ∈ urls_to_scrape s)) as [Hold|Hnew]; [by left|].
    right. by repeat split.
Qed.

Lemma offer_links_sound_witness :
  NoDup (urls_to_scrape site_scraper)
  ∧ NoDup [ "https://site/a"; "https://site/b" ]
  ∧ NoDup (urls_to_scrape
             (offer_links site_scraper [ "https://site/a"; "https://site/b" ])).
Proof.
  assert (H1 : NoDup (urls_to_scrape site_scraper)) by constructor.
  assert (H2 : NoDup [ "https://site/a"; "https://site/b" ]).
  { apply (bool_decide_unpack _). vm_compute. exact I. }
  split; [exact H1|]. split; [exact H2|].
  apply (offer_links_sound site_scraper [ "https://site/a"; "https://site/b" ] H1 H2).
Defined.

(** ** The service *)

Section ServiceFacts.

Variable urlparse : string -> option Urllib.ParseResult.

Lemma start_scrape_effect svc request robots :
  snd (start_scrape urlparse svc request robots) = svc
  ∨ ∃ h, extract_domain urlparse (url request) = Some (Some h)
         ∧ (h ∉ dict_attributes)
         ∧ fst (start_scrape urlparse svc request robots)
           = ScrapeResponse "Scraping started successfully"
         ∧ scrapers (snd (start_scrape urlparse svc request robots))
           = <[h := WebsiteScraper_init (url request) h true robots]> (scrapers svc)
         ∧ (scheduled (snd (start_scrape urlparse svc request robots)) = scheduled svc
            ∨ scheduled (snd (start_scrape urlparse svc request robots))
              = {[ "scraper_" ++ h ]} ∪ scheduled svc).
Proof.
  unfold start_scrape, check_domain.
  destruct (String.prefix "http" (url request)); [|by left].
  destruct (extract_domain urlparse (url request)) as [[h|]|]; simpl; [|by left..].
  case_bool_decide as Hattr; [by left|]. right. exists h.
  split; [done|]. split; [done|]. split; [done|]. split; [done|]. simpl.
  destruct (schedule_interval_hours request) as [interval|]; [|by left].
  case_bool_decide; [by left|by right].
Qed.

Lemma stop_scrape_effect svc request :
  snd (stop_scrape urlparse svc request) = svc
  ∨ ∃ h, extract_domain urlparse (url request) = Some (Some h)
         ∧ is_Some (scrapers svc !! h)
         ∧ fst (stop_scrape urlparse svc request)
           = ScrapeResponse ("Scraper for " ++ h ++ " stopped successfully")
         ∧ scrapers (snd (stop_scrape urlparse svc request)) = delete h (scrapers svc)
         ∧ scheduled (snd (stop_scrape urlparse svc request))
           = scheduled svc ∖ {[ "scraper_" ++ h ]}.
Proof.
  unfold stop_scrape, check_domain.
  destruct (String.prefix "http" (url request)); [|by left].
  destruct (extract_domain urlparse (url request)) as [[h|]|]; simpl; [|by left..].
  destruct (scrapers svc !! h) as [s|] eqn:Hs; [|by left]. right. exists h.
  rewrite Hs. by repeat split.
Qed.

Lemma serve_invariant (P : Service → Prop) :
  (∀ svc request robots, P svc → P (snd (start_scrape urlparse svc request robots))) →
  (∀ svc request, P svc → P (snd (stop_scrape urlparse svc request))) →
  ∀ rqs svc, P svc → P (serve urlparse svc rqs).
Proof.
  intros Hstart Hstop. unfold serve.
  induction rqs as [|rq rqs IH]; intros svc HP; [done|].
  change (P (foldl (λ svc rq, snd (handle urlparse svc rq))
               (snd (handle urlparse svc rq)) rqs)).
  apply IH. destruct rq as [request robots|request]; [by apply Hstart|by apply Hstop].
Qed.

(** X6: A URL that starts with http but has no host, or that [urlparse] does
    not accept, makes [start_scrape] end in an exception; nothing is
    registered. *)
Theorem start_scrape_no_host_unhandled svc request robots :
  String.prefix "http" (url request) = true →
  urlparse (url request) ≫= Urllib.hostname = None →
  start_scrape urlparse svc request robots = (Unhandled, svc).
Proof.
  intros Hp Hh. unfold start_scrape, check_domain. rewrite Hp.
  unfold extract_domain. case_bool_decide as He.
  { rewrite He in Hp. discriminate. }
  destruct (urlparse (url request)) as [parsed|]; [|done].
  simpl in Hh. by rewrite Hh.
Qed.

(** X7: Every scraper the service has registered, after any sequence of start
    and stop requests, overrides robots, so its [_can_fetch] allows every
    URL. *)
Theorem service_scrapers_override_robots (rqs : list service_request)
    (h : string) (s : WebsiteScraper) (u : string) :
  scrapers (serve urlparse Service_init rqs) !! h = Some s →
  override_robots s = true ∧ _can_fetch s u = true.
Proof.
  intros Hs.
  assert (Hall : map_Forall (λ _ s, override_robots s = true)
                   (scrapers (serve urlparse Service_init rqs))).
  { apply (serve_invariant
             (λ svc, map_Forall (λ _ s, override_robots s = true) (scrapers svc))).
    - intros svc request robots Hinv.
      destruct (start_scrape_effect svc request robots)
        as [Heq|(h0 & _ & _ & _ & Hsc & _)]; [by rewrite Heq|].
      rewrite Hsc. by apply map_Forall_insert_2.
    - intros svc request Hinv.
      destruct (stop_scrape_effect svc request)
        as [Heq|(h0 & _ & _ & _ & Hsc & _)]; [by rewrite Heq|].
      rewrite Hsc. by apply map_Forall_delete.
    - apply map_Forall_empty. }
  pose proof (map_Forall_lookup_1 _ _ _ _ Hall Hs) as Ho. simpl in Ho.
  split; [done|]. unfold _can_fetch. by rewrite Ho.
Qed.

(** X8: A start request for a host that has no scraper and no scheduled job,
    without a schedule interval or with one of at most a year (8760 hours,
    for which the interval trigger is built and the job added), followed by
    the stop request for the same URL: both are accepted, and the registry
    and the scheduled jobs are back to what they were. *)
Theorem start_then_stop_restores svc request robots (h : string) :
  String.prefix "http" (url request) = true →
  extract_domain urlparse (url request) = Some (Some h) →
  h ∉ dict_attributes →
  scrapers svc !! h = None →
  "scraper_" ++ h ∉ scheduled svc →
  (∀ interval, schedule_interval_hours request = Some interval →
               (0 ≤ interval ≤ 8760)%Z) →
  let started := start_scrape urlparse svc request robots in
  let stopped := stop_scrape urlparse (snd started) request in
  fst started = ScrapeResponse "Scraping started successfully"
  ∧ fst stopped = ScrapeResponse ("Scraper for " ++ h ++ " stopped successfully")
  ∧ scrapers (snd stopped) = scrapers svc
  ∧ scheduled (snd stopped) = scheduled svc.
Proof.
  intros Hp Hd Hattr Hnone Hjob _ started stopped.
  assert (Hstart : ∃ jobs,
    started = (ScrapeResponse "Scraping started successfully",
               {| scrapers := <[h := WebsiteScraper_init (url request) h true robots]>
                                (scrapers svc);
                  scheduled := jobs;
                  launched := (launched svc ++ [h])%list |})
    ∧ (jobs = scheduled svc ∨ jobs = {[ "scraper_" ++ h ]} ∪ scheduled svc)).
  { subst started. unfold start_scrape, check_domain. rewrite Hp, Hd.
    unfold hasattr_dict. rewrite bool_decide_eq_false_2 by done.
    eexists. split; [reflexivity|].
    destruct (schedule_interval_hours request) as [interval|]; [|by left].
    case_bool_decide; [by left|by right]. }
  destruct Hstart as (jobs & Hstart & Hjobs).
  subst stopped. rewrite Hstart. cbn [fst snd].
  unfold stop_scrape, check_domain. rewrite Hp, Hd.
  cbn [scrapers scheduled]. rewrite lookup_insert_eq. cbn [fst snd scrapers scheduled].
  split; [done|]. split; [done|]. split; [by apply delete_insert_id|].
  apply set_eq. intros x. rewrite elem_of_difference, elem_of_singleton.
  destruct Hjobs as [->| ->].
  - split; [by intros [? _]|]. intros Hx. split; [done|]. by intros ->.
  - rewrite elem_of_union, elem_of_singleton. split.
    + by intros [[->|?] ?].
    + intros Hx. split; [by right|]. by intros ->.
Qed.

(** X9: A stop request that was accepted, sent again, is answered with the
    error for an unknown site and changes nothing; and the accepted stop
    removed the scraper of its own host only. *)
Theorem stop_scrape_twice svc request (msg : string) svc1 :
  stop_scrape urlparse svc request = (ScrapeResponse msg, svc1) →
  stop_scrape urlparse svc1 request
  = (ErrorResponse "No scraper present with this domain" HTTP_400_BAD_REQUEST, svc1)
  ∧ ∃ h, extract_domain urlparse (url request) = Some (Some h)
         ∧ scrapers svc1 !! h = None
         ∧ ∀ h', h' ≠ h → scrapers svc1 !! h' = scrapers svc !! h'.
Proof.
  unfold stop_scrape, check_domain.
  destruct (String.prefix "http" (url request)); [|done].
  destruct (extract_domain urlparse (url request)) as [[h|]|]; [|done..].
  destruct (scrapers svc !! h) as [s|] eqn:Hs; [|done].
  intros [= <- <-]. simpl. rewrite lookup_delete_eq. split; [done|].
  exists h. split; [done|]. split; [apply lookup_delete_eq|].
  intros h' Hne. by apply lookup_delete_ne.
Qed.

(** X10: After any sequence of start and stop requests, every job the scheduler
    holds is the job of a host that has a registered scraper. *)
Theorem scheduled_jobs_have_scrapers (rqs : list service_request) (id : string) :
  id ∈ scheduled (serve urlparse Service_init rqs) →
  ∃ h, id = "scraper_" ++ h
       ∧ is_Some (scrapers (serve urlparse Service_init rqs) !! h).
Proof.
  revert id.
  apply (serve_invariant
           (λ svc, ∀ id, id ∈ scheduled svc →
              ∃ h, id = "scraper_" ++ h ∧ is_Some (scrapers svc !! h))).
  - intros svc request robots Hsvc x Hx.
    destruct (start_scrape_effect svc request robots)
      as [Heq|(h0 & _ & _ & _ & Hsc & Hjobs)].
    + rewrite Heq in *. by apply Hsvc.
    + rewrite Hsc.
      assert (Hold : x ∈ scheduled svc →
        ∃ h, x = "scraper_" ++ h
             ∧ is_Some (<[h0 := WebsiteScraper_init (url request) h0 true robots]>
                          (scrapers svc) !! h)).
      { intros Hin. destruct (Hsvc _ Hin) as (h1 & -> & Hreg). exists h1.
        split; [done|]. apply lookup_insert_is_Some.
        destruct (decide (h0 = h1)); [by left|by right]. }
      destruct Hjobs as [Hj|Hj]; rewrite Hj in Hx; [by apply Hold|].
      apply elem_of_union in Hx as [Hx|Hx]; [|by apply Hold].
      apply elem_of_singleton in Hx as ->. exists h0. split; [done|].
      apply lookup_insert_is_Some. by left.
  - intros svc request Hsvc x Hx.
    destruct (stop_scrape_effect svc request) as [Heq|(h0 & _ & _ & _ & Hsc & Hjobs)].
    + rewrite Heq in *. by apply Hsvc.
    + rewrite Hsc. rewrite Hjobs in Hx.
      apply elem_of_difference in Hx as [Hin Hne].
      destruct (Hsvc _ Hin) as (h1 & -> & Hreg). exists h1. split; [done|].
      rewrite lookup_delete_ne; [done|]. intros ->.
      apply Hne. by apply elem_of_singleton.
  - intros x Hx. by apply not_elem_of_empty in Hx.
Qed.

End ServiceFacts.

Lemma start_scrape_no_host_unhandled_witness :
  String.prefix "http" (url no_host_request) = true
  ∧ Urllib.urlparse (url no_host_request) ≫= Urllib.hostname = None
  ∧ start_scrape Urllib.urlparse Service_init no_host_request open_robots
    = (Unhandled, Service_init).
Proof.
  split; [reflexivity|]. split; [vm_compute; reflexivity|].
  apply (start_scrape_no_host_unhandled Urllib.urlparse Service_init no_host_request
           open_robots); vm_compute; reflexivity.
Defined.

Lemma service_scrapers_override_robots_witness :
  scrapers (serve Urllib.urlparse Service_init [StartScrape example_request broken_robots])
    !! "example.com"
  = Some (WebsiteScraper_init "https://example.com" "example.com" true broken_robots)
  ∧ override_robots
      (WebsiteScraper_init "https://example.com" "example.com" true broken_robots) = true
  ∧ _can_fetch (WebsiteScraper_init "https://example.com" "example.com" true broken_robots)
      "https://example.com/private" = true.
Proof.
  split; [vm_compute; reflexivity|].
  apply (service_scrapers_override_robots Urllib.urlparse
           [StartScrape example_request broken_robots] "example.com").
  vm_compute; reflexivity.
Defined.

Lemma start_then_stop_restores_witness :
  String.prefix "http" (url daily_request) = true
  ∧ extract_domain Urllib.urlparse (url daily_request) = Some (Some "example.com")
  ∧ ("example.com" ∉ dict_attributes)
  ∧ scrapers Service_init !! "example.com" = None
  ∧ ("scraper_" ++ "example.com" ∉ scheduled Service_init)
  ∧ (∀ interval, schedule_interval_hours daily_request = Some interval →
                 (0 ≤ interval ≤ 8760)%Z)
  ∧ scrapers (snd (stop_scrape Urllib.urlparse
                     (snd (start_scrape Urllib.urlparse Service_init daily_request
                             open_robots))
                     daily_request))
    = scrapers Service_init.
Proof.
  assert (H1 : String.prefix "http" (url daily_request) = true) by reflexivity.
  assert (H2 : extract_domain Urllib.urlparse (url daily_request)
               = Some (Some "example.com")) by (vm_compute; reflexivity).
  assert (H3 : "example.com" ∉ dict_attributes).
  { apply (bool_decide_unpack _). vm_compute. exact I. }
  assert (H4 : scrapers Service_init !! "example.com" = None) by reflexivity.
  assert (H5 : "scraper_" ++ "example.com" ∉ scheduled Service_init)
    by apply not_elem_of_empty.
  assert (H6 : ∀ interval, schedule_interval_hours daily_request = Some interval →
                            (0 ≤ interval ≤ 8760)%Z).
  { intros interval [= <-]. split; discriminate. }
  split; [exact H1|]. split; [exact H2|]. split; [exact H3|].
  split; [exact H4|]. split; [exact H5|]. split; [exact H6|].
  apply (start_then_stop_restores Urllib.urlparse Service_init daily_request open_robots
           "example.com" H1 H2 H3 H4 H5 H6).
Defined.

Lemma stop_scrape_twice_witness :
  stop_scrape Urllib.urlparse example_service example_request
  = (ScrapeResponse "Scraper for example.com stopped successfully",
     snd (stop_scrape Urllib.urlparse example_service example_request))
  ∧ stop_scrape Urllib.urlparse
      (snd (stop_scrape Urllib.urlparse example_service example_request)) example_request
    = (ErrorResponse "No scraper present with this domain" HTTP_400_BAD_REQUEST,
       snd (stop_scrape Urllib.urlparse example_service example_request)).
Proof.
  assert (H : stop_scrape Urllib.urlparse example_service example_request
              = (ScrapeResponse "Scraper for example.com stopped successfully",
                 snd (stop_scrape Urllib.urlparse example_service example_request)))
    by (vm_compute; reflexivity).
  split; [exact H|].
  apply (stop_scrape_twice Urllib.urlparse example_service example_request _ _ H).
Defined.

Lemma scheduled_jobs_have_scrapers_witness :
  "scraper_example.com"
    ∈ scheduled (serve Urllib.urlparse Service_init [StartScrape daily_request open_robots])
  ∧ ∃ h, "scraper_example.com" = "scraper_" ++ h
         ∧ is_Some (scrapers (serve Urllib.urlparse Service_init
                                [StartScrape daily_request open_robots]) !! h).
Proof.
  assert (H : "scraper_example.com"
              ∈ scheduled (serve Urllib.urlparse Service_init
                             [StartScrape daily_request open_robots])).
  { apply (bool_decide_unpack _). vm_compute. exact I. }
  split; [exact H|].
  apply (scheduled_jobs_have_scrapers Urllib.urlparse
           [StartScrape daily_request open_robots] "scraper_example.com" H).
Defined.

(** ** Tool results *)

Lemma substring_0_length (m : nat) (s : string) :
  String.length (substring 0 m s) = Nat.min m (String.length s).
Proof.
  revert s. induction m as [|m IH]; intros [|a s]; simpl; try done.
  by rewrite IH.
Qed.

Lemma substring_0_prefix (m : nat) (s : string) :
  String.prefix (substring 0 m s) s = true.
Proof.
  revert s. induction m as [|m IH]; intros [|a s]; simpl; try done.
  destruct (ascii_dec a a); [apply IH|done].
Qed.

(** X12: The text of a tool result is the first 2000 characters of the response
    text: never longer than 2000, always a prefix of the response text, and
    the whole text exactly when that has at most 2000 characters.  The
    result is a success exactly for a status from 200 to 299, and carries an
    elapsed time exactly if the elapsed time of the response is not zero. *)
Theorem format_response_text_bounded (Json Float : Type) (total_milliseconds : Z → Float)
    (response : HttpResponse Json) :
  let result := format_response Json Float total_milliseconds response in
  (String.length (tr_text Json Float result) ≤ 2000)%nat
  ∧ String.prefix (tr_text Json Float result) (text Json response) = true
  ∧ (tr_text Json Float result = text Json response
     ↔ (String.length (text Json response) ≤ 2000)%nat)
  ∧ (tr_success Json Float result = true
     ↔ (200 ≤ status_code Json response < 300)%Z)
  ∧ (is_Some (tr_elapsed_ms Json Float result) ↔ elapsed Json response ≠ 0%Z).
Proof.
  simpl. destruct (2000 <? String.length (text Json response))%nat eqn:Hlen.
  - apply Nat.ltb_lt in Hlen.
    pose proof (substring_0_length 2000 (text Json response)) as Hsub.
    split; [lia|]. split; [apply substring_0_prefix|]. split.
    + split; [intros Heq; rewrite Heq in Hsub; lia|lia].
    + split; [apply bool_decide_eq_true|].
      case_bool_decide; split; try done; by intros [? ?].
  - apply Nat.ltb_ge in Hlen. split; [done|]. split.
    + clear Hlen. induction (text Json response) as [|a s IH]; simpl; [done|].
      destruct (ascii_dec a a); done.
    + split; [done|]. split; [apply bool_decide_eq_true|].
      case_bool_decide; split; try done; by intros [? ?].
Qed.

(** ** Configuration *)

Section ConfigFacts.

Variable value : Type.
Variable py_contains : value -> string -> option bool.
Variable py_getitem : value -> string -> option value.
Variable of_str : string -> value.
Variable json_loads : string -> option value.
Variable basicConfig : Config.log_level -> bool.

(** X13: Whatever the configuration holds, also a scraper section with a user
    agent in it, [get_scraper_useragent] returns the built-in fallback: it
    looks for the section among the attributes of the dict, where it is
    not. *)
Theorem get_scraper_useragent_ignores_config (cfg : gmap string value) :
  Config.get_scraper_useragent value py_contains py_getitem of_str cfg
  = Some (of_str "Mozilla/5.0 (compatible; RAGChatBot/1.0;)").
Proof.
  unfold Config.get_scraper_useragent, hasattr_dict.
  assert (Hno : bool_decide (Config.SCRAPE_CONFIGURATION ∈ dict_attributes) = false)
    by (vm_compute; reflexivity).
  by rewrite Hno.
Qed.

(** X14: [initialize] returns only if the environment sets all three section
    variables to text that [json.loads] accepts; the sections of the
    configuration are then what was parsed from the environment, and every
    other key is as before.  The section defaults of the module are never
    installed: with a variable unset, [initialize] raises. *)
Theorem initialize_needs_environment (env : gmap string string)
    (cfg cfg' : gmap string value) :
  Config.initialize value json_loads basicConfig env cfg = (true, cfg') →
  (∃ scrape vector_db llm,
     env !! Config.SCRAPE_CONFIGURATION ≫= json_loads = Some scrape
     ∧ env !! Config.VECTOR_DB_CONFIGURATION ≫= json_loads = Some vector_db
     ∧ env !! Config.LLM_CONFIGURATION ≫= json_loads = Some llm
     ∧ cfg' !! Config.SCRAPE_CONFIGURATION = Some scrape
     ∧ cfg' !! Config.VECTOR_DB_CONFIGURATION = Some vector_db
     ∧ cfg' !! Config.LLM_CONFIGURATION = Some llm)
  ∧ ∀ k, k ≠ Config.SCRAPE_CONFIGURATION → k ≠ Config.VECTOR_DB_CONFIGURATION →
         k ≠ Config.LLM_CONFIGURATION → cfg' !! k = cfg !! k.
Proof.
  unfold Config.initialize, Config.loads_env.
  destruct (negb _); [done|].
  destruct (env !! Config.SCRAPE_CONFIGURATION) as [t1|]; [|done]. simpl.
  destruct (json_loads t1) as [v1|]; [|done].
  destruct (env !! Config.VECTOR_DB_CONFIGURATION) as [t2|]; [|done]. simpl.
  destruct (json_loads t2) as [v2|]; [|done].
  destruct (env !! Config.LLM_CONFIGURATION) as [t3|]; [|done]. simpl.
  destruct (json_loads t3) as [v3|]; [|done].
  intros [= <-]. split.
  - exists v1, v2, v3. split; [done|]. split; [done|]. split; [done|].
    split; [|split].
    + rewrite lookup_insert_ne by done. rewrite lookup_insert_ne by done.
      apply lookup_insert_eq.
    + rewrite lookup_insert_ne by done. apply lookup_insert_eq.
    + apply lookup_insert_eq.
  - intros k H1 H2 H3. by rewrite !lookup_insert_ne.
Qed.

(** X15: Updating the configuration and then updating it with the configuration
    as it was before gives back that configuration exactly if the update
    added no new key: [update_config] never removes a key. *)
Theorem update_config_restores (original new_config : gmap string value) :
  Config.update_config value original (Config.update_config value new_config original)
  = original
  ↔ dom new_config ⊆ dom original.
Proof.
  unfold Config.update_config. split.
  - intros Heq. apply (f_equal dom) in Heq. rewrite !dom_union_L in Heq.
    intros k Hk. rewrite <- Heq. apply elem_of_union_r, elem_of_union_l, Hk.
  - intros Hsub. apply map_eq. intros k. rewrite !lookup_union.
    destruct (original !! k) as [v|] eqn:Ho; simpl.
    + by destruct (new_config !! k).
    + assert (Hn : new_config !! k = None).
      { apply not_elem_of_dom. intros Hk. apply Hsub in Hk.
        by apply not_elem_of_dom in Ho. }
      by rewrite Hn.
Qed.

(** X16: The only level [get_log_level] ever returns as a level is INFO: for
    DEBUG, for WARNING and for ERROR in the environment, in any case of
    letters, it returns a tuple with that level in it. *)
Theorem get_log_level_plain_only_info (env : gmap string string) :
  (∀ n, Config.get_log_level env = Config.Level n → n = Config.INFO)
  ∧ (Config.upper (default "INFO" (env !! "LOGGING_LEVEL")) = "DEBUG" →
     Config.get_log_level env = Config.LevelTuple Config.DEBUG)
  ∧ (Config.upper (default "INFO" (env !! "LOGGING_LEVEL")) = "WARNING" →
     Config.get_log_level env = Config.LevelTuple Config.WARNING)
  ∧ (Config.upper (default "INFO" (env !! "LOGGING_LEVEL")) = "ERROR" →
     Config.get_log_level env = Config.LevelTuple Config.ERROR).
Proof.
  unfold Config.get_log_level. split; [|split; [|split]].
  - intros n. repeat case_bool_decide; by intros [= <-].
  - intros ->. reflexivity.
  - intros ->. reflexivity.
  - intros ->. reflexivity.
Qed.

End ConfigFacts.

Lemma initialize_needs_environment_witness :
  Config.initialize string Some (λ _, true)
    {[ "SCRAPE_CONFIGURATION" := "{}"; "VECTOR_DB_CONFIGURATION" := "{}";
       "LLM_CONFIGURATION" := "{}" ]} ∅
  = (true, {[ "SCRAPE_CONFIGURATION" := "{}"; "VECTOR_DB_CONFIGURATION" := "{}";
              "LLM_CONFIGURATION" := "{}" ]})
  ∧ ∀ k, k ≠ Config.SCRAPE_CONFIGURATION → k ≠ Config.VECTOR_DB_CONFIGURATION →
         k ≠ Config.LLM_CONFIGURATION →
         ({[ "SCRAPE_CONFIGURATION" := "{}"; "VECTOR_DB_CONFIGURATION" := "{}";
             "LLM_CONFIGURATION" := "{}" ]} : gmap string string) !! k
         = (∅ : gmap string string) !! k.
Proof.
  assert (H : Config.initialize string Some (λ _, true)
    {[ "SCRAPE_CONFIGURATION" := "{}"; "VECTOR_DB_CONFIGURATION" := "{}";
       "LLM_CONFIGURATION" := "{}" ]} ∅
  = (true, {[ "SCRAPE_CONFIGURATION" := "{}"; "VECTOR_DB_CONFIGURATION" := "{}";
              "LLM_CONFIGURATION" := "{}" ]})) by (vm_compute; reflexivity).
  split; [exact H|].
  apply (initialize_needs_environment string Some (λ _, true) _ _ _ H).
Defined.

Lemma get_log_level_plain_only_info_witness :
  Config.get_log_level {[ "LOGGING_LEVEL" := "debug" ]} = Config.LevelTuple 10%Z
  ∧ Config.get_log_level {[ "LOGGING_LEVEL" := "Warning" ]} = Config.LevelTuple 30%Z
  ∧ Config.get_log_level {[ "LOGGING_LEVEL" := "ERROR" ]} = Config.LevelTuple 40%Z.
Proof.
  split; [|split].
  - apply (proj1 (proj2 (get_log_level_plain_only_info {[ "LOGGING_LEVEL" := "debug" ]}))).
    vm_compute; reflexivity.
  - apply (proj1 (proj2 (proj2
             (get_log_level_plain_only_info {[ "LOGGING_LEVEL" := "Warning" ]})))).
    vm_compute; reflexivity.
  - apply (proj2 (proj2 (proj2
             (get_log_level_plain_only_info {[ "LOGGING_LEVEL" := "ERROR" ]})))).
    vm_compute; reflexivity.
Defined.

(** ** The vector store *)

Section StorageFacts.

Variable Vector : Type.
Variable split_text : string -> list string.
Variable embed_query : string -> option Vector.
Variable py_hash : string -> Z.
Variable upsert_raises : Z -> bool.

Abbreviation Point := (Storage.Point Vector).
Abbreviation store_chunks := (Storage.store_chunks Vector embed_query py_hash upsert_raises).
Abbreviation store_documents :=
  (Storage.store_documents Vector split_text embed_query py_hash upsert_raises).
Abbreviation writes_of := (Storage.writes_of Vector embed_query py_hash upsert_raises).
Abbreviation writes := (Storage.writes Vector split_text embed_query py_hash upsert_raises).
Abbreviation write := (Storage.write Vector).

Lemma store_chunks_writes (points : gmap Z Point) doc chunks :
  store_chunks points doc chunks = foldl write points (writes_of doc chunks).
Proof.
  revert points. induction chunks as [|chunk chunks IH]; intros points; simpl; [done|].
  destruct (embed_query chunk) as [embedding|]; [|done].
  destruct (upsert_raises _); [done|]. simpl. by rewrite IH.
Qed.

Lemma store_documents_writes (points : gmap Z Point) documents :
  store_documents points documents = foldl write points (writes documents).
Proof.
  unfold Storage.store_documents, Storage.writes.
  revert points. induction documents as [|doc documents IH]; intros points; [done|].
  simpl. rewrite foldl_app, IH. by rewrite store_chunks_writes.
Qed.

Lemma foldl_write_union (points : gmap Z Point) (ws : list (Z * Point)) :
  foldl write points ws = list_to_map (reverse ws) ∪ points.
Proof.
  revert points. induction ws as [|[k v] ws IH]; intros points; simpl.
  - by rewrite (left_id_L ∅ (∪)).
  - rewrite IH, reverse_cons, list_to_map_app. simpl.
    rewrite <- (assoc_L (∪)). f_equal. unfold Storage.write. simpl.
    rewrite insert_empty. apply insert_union_singleton_l.
Qed.

Lemma foldl_write_dom (points : gmap Z Point) (ws : list (Z * Point)) :
  dom (foldl write points ws) = list_to_set ws.*1 ∪ dom points.
Proof.
  revert points. induction ws as [|[k v] ws IH]; intros points; simpl.
  - by rewrite (left_id_L ∅ (∪)).
  - rewrite IH. unfold Storage.write. simpl. rewrite dom_insert_L.
    rewrite (assoc_L (∪)). f_equal. apply (comm_L (∪)).
Qed.

Lemma writes_of_ids doc doc' chunks :
  (writes_of doc chunks).*1 = (writes_of doc' chunks).*1.
Proof.
  induction chunks as [|chunk chunks IH]; [done|]. cbn [Storage.writes_of].
  destruct (embed_query chunk); [|done]. destruct (upsert_raises _); [done|].
  rewrite !fmap_cons. cbn [fst]. f_equal. apply IH.
Qed.

Lemma writes_ids documents documents' :
  doc_content <$> documents' = doc_content <$> documents →
  (writes documents').*1 = (writes documents).*1.
Proof.
  unfold Storage.writes. revert documents'.
  induction documents as [|doc documents IH]; intros [|doc' documents'] Heq;
    try done.
  rewrite !fmap_cons in Heq. injection Heq as Hc Hrest.
  rewrite !bind_cons, !fmap_app, (IH _ Hrest), Hc.
  f_equal. apply writes_of_ids.
Qed.

(** X17: Storing documents whose contents are those of documents stored before,
    in the same order, adds no point and removes none: the ids of the
    points are the same.  Points are never removed by storing. *)
Theorem restore_same_contents_adds_no_point (points : gmap Z Point)
    (documents documents' : list Document) :
  doc_content <$> documents' = doc_content <$> documents →
  dom (store_documents (store_documents points documents) documents')
  = dom (store_documents points documents)
  ∧ size (store_documents (store_documents points documents) documents')
    = size (store_documents points documents)
  ∧ dom points ⊆ dom (store_documents points documents).
Proof.
  intros Heq. rewrite !store_documents_writes, !foldl_write_dom.
  rewrite (writes_ids _ _ Heq).
  assert (Hdom : list_to_set (writes documents).*1
                 ∪ (list_to_set (writes documents).*1 ∪ dom points)
                 = list_to_set (writes documents).*1 ∪ dom points :> gset Z).
  { rewrite (assoc_L (∪)). f_equal. apply (idemp_L (∪)). }
  split; [exact Hdom|]. split; [|apply union_subseteq_r].
  rewrite <- !size_dom, !foldl_write_dom, (writes_ids _ _ Heq). by rewrite Hdom.
Qed.

(** X18: Within one process, where the hash of a text is one function
    [py_hash] for both calls, storing the same documents a second time
    leaves the collection exactly as the first time left it.  (The hash of
    a string is seeded anew for every process, so nothing is said about a
    second store after a restart.) *)
Theorem store_documents_idempotent (points : gmap Z Point) (documents : list Document) :
  store_documents (store_documents points documents) documents
  = store_documents points documents.
Proof.
  rewrite !store_documents_writes, !foldl_write_union.
  rewrite (assoc_L (∪)). f_equal. apply (idemp_L (∪)).
Qed.

(** X19: A document whose first chunk cannot be embedded, or that has no chunk,
    is passed over: the documents before and after it are stored as if it
    were not in the list. *)
Theorem store_documents_skips_failed (points : gmap Z Point)
    (before after : list Document) (doc : Document) :
  head (split_text (doc_content doc)) ≫= embed_query = None →
  store_documents points (before ++ doc :: after)
  = store_documents points (before ++ after).
Proof.
  intros Hfail. unfold Storage.store_documents. rewrite !foldl_app. simpl.
  f_equal. destruct (split_text (doc_content doc)) as [|chunk chunks]; [done|].
  simpl in *. by rewrite Hfail.
Qed.

(** X20: Every point that is in the collection after storing was there before or
    has the id of a chunk of one of the documents, the absolute value of
    the hash of its text. *)
Theorem store_documents_ids (points : gmap Z Point) (documents : list Document) (id : Z) :
  id ∈ dom (store_documents points documents) →
  id ∈ dom points
  ∨ ∃ doc chunk, doc ∈ documents ∧ chunk ∈ split_text (doc_content doc)
                 ∧ id = Z.abs (py_hash chunk).
Proof.
  rewrite store_documents_writes, foldl_write_dom.
  intros [Hin|Hin]%elem_of_union; [right|by left].
  apply elem_of_list_to_set, list_elem_of_fmap in Hin as ([k pt] & -> & Hw).
  unfold Storage.writes in Hw. apply list_elem_of_bind in Hw as (doc & Hw & Hdoc).
  exists doc. revert Hw. generalize (split_text (doc_content doc)).
  induction l as [|chunk chunks IH]; simpl; [by intros ?%elem_of_nil|].
  destruct (embed_query chunk); [|by intros ?%elem_of_nil].
  destruct (upsert_raises _); [by intros ?%elem_of_nil|].
  intros [Hhd|Htl]%elem_of_cons.
  - injection Hhd as -> _. exists chunk. split; [done|]. split; [by left|done].
  - destruct (IH Htl) as (c & _ & Hc & Hid). exists c.
    split; [done|]. split; [by right|done].
Qed.

End StorageFacts.

(** The theorem on a page scraped on two days with the same content. *)
Lemma restore_same_contents_adds_no_point_witness :
  doc_content <$> [page_document "https://site/a" "hello" "day 2"]
  = doc_content <$> [page_document "https://site/a" "hello" "day 1"]
  ∧ size (Storage.store_documents nat one_chunk embed_length hash_length (λ _, false)
            (Storage.store_documents nat one_chunk embed_length hash_length (λ _, false)
               ∅ [page_document "https://site/a" "hello" "day 1"])
            [page_document "https://site/a" "hello" "day 2"])
    = size (Storage.store_documents nat one_chunk embed_length hash_length (λ _, false)
              ∅ [page_document "https://site/a" "hello" "day 1"]).
Proof.
  split; [reflexivity|].
  apply (restore_same_contents_adds_no_point nat one_chunk embed_length hash_length
           (λ _, false) ∅
           [page_document "https://site/a" "hello" "day 1"]
           [page_document "https://site/a" "hello" "day 2"]).
  reflexivity.
Defined.

(** The theorem on a page without text between two pages with text. *)
Lemma store_documents_skips_failed_witness :
  head (one_chunk (doc_content (page_document "https://site/b" "" "day 1")))
    ≫= embed_length = None
  ∧ Storage.store_documents nat one_chunk embed_length hash_length (λ _, false) ∅
      ([page_document "https://site/a" "hello" "day 1"]
       ++ page_document "https://site/b" "" "day 1"
          :: [page_document "https://site/c" "goodbye" "day 1"])
    = Storage.store_documents nat one_chunk embed_length hash_length (λ _, false) ∅
        ([page_document "https://site/a" "hello" "day 1"]
         ++ [page_document "https://site/c" "goodbye" "day 1"]).
Proof.
  split; [reflexivity|].
  apply (store_documents_skips_failed nat one_chunk embed_length hash_length (λ _, false) ∅
           [page_document "https://site/a" "hello" "day 1"]
           [page_document "https://site/c" "goodbye" "day 1"]
           (page_document "https://site/b" "" "day 1")).
  reflexivity.
Defined.

Lemma store_documents_ids_witness :
  5%Z ∈ dom (Storage.store_documents nat one_chunk embed_length hash_length (λ _, false)
               ∅ [page_document "https://site/a" "hello" "day 1"])
  ∧ (5%Z ∈ dom (∅ : gmap Z (Storage.Point nat))
     ∨ ∃ doc chunk, doc ∈ [page_document "https://site/a" "hello" "day 1"]
                    ∧ chunk ∈ one_chunk (doc_content doc)
                    ∧ 5%Z = Z.abs (hash_length chunk)).
Proof.
  assert (H : 5%Z ∈ dom (Storage.store_documents nat one_chunk embed_length hash_length
                           (λ _, false) ∅
                           [page_document "https://site/a" "hello" "day 1"])).
  { apply (bool_decide_unpack _). vm_compute. exact I. }
  split; [exact H|].
  apply (store_documents_ids nat one_chunk embed_length hash_length (λ _, false) ∅
           [page_document "https://site/a" "hello" "day 1"] 5%Z H).
Defined.
